(** * Hexaequo-V3: the development HTTP server [dev_server.py]

    A shallow embedding of [dev_server.py] and of the parts of CPython's
    standard library ([http.server], [socketserver], version 3.11) that the
    script inherits or calls, followed by the properties of the server.

    Layout of the file:
    - Python values, exceptions and the [%] operator on strings;
    - the effect monad: process state plus exceptions;
    - the inherited request-handler methods ([http.server]);
    - [NoCacheHTTPRequestHandler], the class defined by the script;
    - [socketserver.TCPServer] and the script's top level;
    - lemmas and theorems. *)

From Stdlib Require Import String Ascii List ZArith Lia Bool DecimalString.
Import ListNotations.
Local Open Scope string_scope.
Local Open Scope Z_scope.

(** ** Characters and literals *)

(** ['\033'], the escape character that starts every ANSI colour code. *)
Definition ESC : string := String "027"%char EmptyString.
(** ['\r\n'] and ['\n']. *)
Definition CRLF : string := String "013"%char (String "010"%char EmptyString).
Definition LF : string := String "010"%char EmptyString.
(** The double quote, written by its code. *)
Definition DQUOTE : string := String "034"%char EmptyString.
Definition BACKSLASH : string := String "092"%char EmptyString.

(** ** Python values *)

(** The values that reach [log_message] as format arguments: strings,
    integers (an [HTTPStatus] member is an [int]) and any other object, of
    which only [str()] and [repr()] are known; such an object has no string
    methods. *)
Inductive pyval : Type :=
| PyStr (s : string)
| PyInt (n : Z)
| PyObject (str_ repr_ : string).

(** The exceptions the modelled code can raise.  [NotModelled] is not a Python
    exception: it marks a use of Python outside the modelled fragment. *)
Inductive exn : Type :=
| IndexError
| AttributeError
| TypeError
| ValueError
| OSError
| KeyboardInterrupt
| NotModelled.

Inductive outcome (A : Type) : Type :=
| Ok (a : A)
| Raise (e : exn).
Arguments Ok {A} a.
Arguments Raise {A} e.

(** [str(n)] for an integer. *)
Definition str_int (n : Z) : string := NilZero.string_of_int (Z.to_int n).

(** Two lower-case hexadecimal digits of a byte, as in ['\x1b']. *)
Definition hex_digit (n : N) : ascii :=
  match n with
  | 0%N => "0" | 1%N => "1" | 2%N => "2" | 3%N => "3" | 4%N => "4"
  | 5%N => "5" | 6%N => "6" | 7%N => "7" | 8%N => "8" | 9%N => "9"
  | 10%N => "a" | 11%N => "b" | 12%N => "c" | 13%N => "d" | 14%N => "e"
  | _ => "f"
  end%char.

Definition hex_escape (c : ascii) : string :=
  let n := N_of_ascii c in
  BACKSLASH ++ "x" ++ String (hex_digit (N.div n 16)) (String (hex_digit (N.modulo n 16)) EmptyString).

Fixpoint contains_char (c : ascii) (s : string) : bool :=
  match s with
  | EmptyString => false
  | String d rest => if Ascii.eqb c d then true else contains_char c rest
  end.

(** [str.isprintable] on one Latin-1 code point. *)
Definition isprintable (c : ascii) : bool :=
  let n := N_of_ascii c in
  ((32 <=? n) && (n <? 127) || (161 <=? n) && negb (n =? 173))%N.

(** One character of [repr(s)], [q] being the quote chosen for the literal. *)
Definition repr_char (q : ascii) (c : ascii) : string :=
  if Ascii.eqb c q || Ascii.eqb c "092"%char then BACKSLASH ++ String c EmptyString
  else if Ascii.eqb c "009"%char then BACKSLASH ++ "t"
  else if Ascii.eqb c "010"%char then BACKSLASH ++ "n"
  else if Ascii.eqb c "013"%char then BACKSLASH ++ "r"
  else if isprintable c then String c EmptyString
  else hex_escape c.

Fixpoint repr_chars (q : ascii) (s : string) : string :=
  match s with
  | EmptyString => EmptyString
  | String c rest => repr_char q c ++ repr_chars q rest
  end.

(** [repr(s)] for a string of Latin-1 code points: single quotes, unless the
    string holds a single quote and no double quote. *)
Definition repr_str (s : string) : string :=
  let q := if contains_char "'"%char s && negb (contains_char "034"%char s)
           then "034"%char else "'"%char in
  String q (repr_chars q s) ++ String q EmptyString.

Definition py_str (v : pyval) : string :=
  match v with
  | PyStr s => s
  | PyInt n => str_int n
  | PyObject s _ => s
  end.

Definition py_repr (v : pyval) : string :=
  match v with
  | PyStr s => repr_str s
  | PyInt n => str_int n
  | PyObject _ r => r
  end.

Definition outcome_map {A B : Type} (f : A -> B) (o : outcome A) : outcome B :=
  match o with
  | Ok a => Ok (f a)
  | Raise e => Raise e
  end.

(** The conversion types of the [%] operator that are modelled: [%s], [%r],
    [%d] and its synonyms [%i] and [%u]. *)
Definition modelled (conv : ascii) : bool :=
  Ascii.eqb conv "s" || Ascii.eqb conv "r"
  || Ascii.eqb conv "d" || Ascii.eqb conv "i" || Ascii.eqb conv "u".

(** One conversion: [%s] and [%r] take any value, [%d] a number only ("%d
    format: a real number is required"). *)
Definition convert (conv : ascii) (v : pyval) : outcome string :=
  if Ascii.eqb conv "s" then Ok (py_str v)
  else if Ascii.eqb conv "r" then Ok (py_repr v)
  else
    match v with
    | PyInt n => Ok (str_int n)
    | _ => Raise TypeError
    end.

(** [format % args] for a tuple [args].  The format is read left to right; a
    conversion with no argument left raises [TypeError] ("not enough
    arguments for format string"), arguments left over at the end raise
    [TypeError] ("not all arguments converted"), a lone [%] at the end raises
    [ValueError] ("incomplete format").  Flags, widths, precisions, mapping
    keys and the other conversion types are outside the fragment. *)
Fixpoint str_mod (format : string) (args : list pyval) : outcome string :=
  match format with
  | EmptyString =>
      match args with
      | [] => Ok EmptyString
      | _ :: _ => Raise TypeError
      end
  | String c rest =>
      if Ascii.eqb c "%" then
        match rest with
        | EmptyString => Raise ValueError
        | String conv rest' =>
            if Ascii.eqb conv "%" then
              outcome_map (String "%"%char) (str_mod rest' args)
            else if negb (modelled conv) then Raise NotModelled
            else
              match args with
              | [] => Raise TypeError
              | v :: args' =>
                  match convert conv v with
                  | Ok s => outcome_map (append s) (str_mod rest' args')
                  | Raise e => Raise e
                  end
              end
        end
      else outcome_map (String c) (str_mod rest args)
  end.

(** ** Strings: the methods the code uses *)

(** [s.startswith(p)]. *)
Definition str_startswith (s p : string) : bool := String.prefix p s.

Fixpoint rev_string (s : string) : string :=
  match s with
  | EmptyString => EmptyString
  | String c rest => rev_string rest ++ String c EmptyString
  end.

(** [s.endswith(p)]. *)
Definition str_endswith (s p : string) : bool :=
  String.prefix (rev_string p) (rev_string s).

Definition lower_char (c : ascii) : ascii :=
  let n := N_of_ascii c in
  if ((65 <=? n) && (n <=? 90))%N then ascii_of_N (n + 32) else c.

(** [s.lower()] on ASCII letters. *)
Fixpoint str_lower (s : string) : string :=
  match s with
  | EmptyString => EmptyString
  | String c rest => String (lower_char c) (str_lower rest)
  end.

(** [len(s)]. *)
Definition len (s : string) : Z := Z.of_nat (String.length s).

(** [b''.join(l)]. *)
Definition join (l : list string) : string := String.concat EmptyString l.

(** [os.path.join(a, b)] for a relative [b] (POSIX). *)
Definition path_join (a b : string) : string :=
  if String.eqb a EmptyString then b
  else if str_endswith a "/" then a ++ b
  else a ++ "/" ++ b.

(** ** Process state and the effect monad *)

(** What a request handler can change: the two console streams (one entry
    per [print] or [write] call), the handler's header buffer (absent until
    the first header is buffered), the chunks written to the client socket
    and the keep-alive flag. *)
Record state : Type := mkState {
  stdout : list string;
  stderr : list string;
  _headers_buffer : option (list string);
  wfile : list string;
  close_connection : bool
}.

Definition set_stdout (v : list string) (st : state) : state :=
  mkState v (stderr st) (_headers_buffer st) (wfile st) (close_connection st).
Definition set_stderr (v : list string) (st : state) : state :=
  mkState (stdout st) v (_headers_buffer st) (wfile st) (close_connection st).
Definition set_headers_buffer (v : option (list string)) (st : state) : state :=
  mkState (stdout st) (stderr st) v (wfile st) (close_connection st).
Definition set_wfile (v : list string) (st : state) : state :=
  mkState (stdout st) (stderr st) (_headers_buffer st) v (close_connection st).
Definition set_close_connection (v : bool) (st : state) : state :=
  mkState (stdout st) (stderr st) (_headers_buffer st) (wfile st) v.

(** A computation reads and updates the state and either returns or raises;
    what was printed or sent before an exception stays printed and sent. *)
Definition M (A : Type) : Type := state -> outcome A * state.

Definition ret {A : Type} (a : A) : M A := fun st => (Ok a, st).
Definition raise {A : Type} (e : exn) : M A := fun st => (Raise e, st).
Definition bind {A B : Type} (c : M A) (k : A -> M B) : M B :=
  fun st =>
    match c st with
    | (Ok a, st') => k a st'
    | (Raise e, st') => (Raise e, st')
    end.
Definition lift {A : Type} (o : outcome A) : M A := fun st => (o, st).
Definition modify (f : state -> state) : M unit := fun st => (Ok tt, f st).
Definition gets {A : Type} (f : state -> A) : M A := fun st => (Ok (f st), st).

Declare Scope py_scope.
Delimit Scope py_scope with py.
Notation "x <- c1 ;; c2" := (bind c1 (fun x => c2))
  (at level 61, c1 at next level, right associativity) : py_scope.
Notation "c1 ;; c2" := (bind c1 (fun _ => c2))
  (at level 61, right associativity) : py_scope.
Local Open Scope py_scope.

(** [print(s)]: one more line on standard output. *)
Definition print (s : string) : M unit :=
  modify (fun st => set_stdout (stdout st ++ [s]) st).

(** [sys.stderr.write(s)]. *)
Definition stderr_write (s : string) : M unit :=
  modify (fun st => set_stderr (stderr st ++ [s]) st).

(** [self.wfile.write(b)]. *)
Definition wfile_write (b : string) : M unit :=
  modify (fun st => set_wfile (wfile st ++ [b]) st).

(** [args[i]] on a tuple. *)
Definition getitem (args : list pyval) (i : nat) : M pyval :=
  match nth_error args i with
  | Some v => ret v
  | None => raise IndexError
  end.

(** [v.startswith(p)]: only a string has the method. *)
Definition startswith (v : pyval) (p : string) : M bool :=
  match v with
  | PyStr s => ret (str_startswith s p)
  | _ => raise AttributeError
  end.

(** ** The request handler's data *)

(** What [email.utils.parsedate_to_datetime] makes of an [If-Modified-Since]
    value: an exception, a naive datetime, a datetime in [timezone.utc], or
    one in another zone; [t] counts seconds since the epoch, a naive value
    being read as UTC. *)
Inductive ims_date : Type :=
| IllFormed
| Naive (t : Z)
| UTC (t : Z)
| OtherZone (t : Z).

(** The attributes of a handler instance that its methods only read: the
    peer's host, the parsed request line, the two request headers the static
    handler consults, and the clock as the two inherited formatters render
    it. *)
Record handler : Type := mkHandler {
  client_address : string;
  requestline : string;
  command : string;
  path : string;
  request_version : string;
  If_Modified_Since : option ims_date;
  If_None_Match : bool;
  log_date_time_string : string;
  date_time_string : string
}.

(** [self.address_string()] *)
Definition address_string (self : handler) : string := client_address self.

(** An open file: its bytes and [st_mtime], whole seconds. *)
Record file : Type := mkFile {
  content : string;
  st_mtime : Z
}.

(** What [open(path, 'rb')] gives: the file, an [OSError] (no such file, no
    permission, a directory) or a [ValueError] (a path with an embedded null
    byte). *)
Inductive open_result : Type :=
| Opened (f : file)
| OpenOSError
| OpenValueError.

(** What [handle_one_request] finds when it reads from the connection: no
    request line (the peer closed), a read that timed out with exception
    [e], a request that [parse_request] or the length check refused, calling
    [send_error(code, message)] with the handler's attributes as they stood,
    or a parsed request. *)
Inductive request : Type :=
| NoRequest
| TimedOut (self : handler) (e : pyval)
| Rejected (self : handler) (code : Z) (message : option string)
| Parsed (self : handler).

(** One connection: the peer's address as [handle_error] prints it, the
    first request and those the peer would send after it. *)
Record connection : Type := mkConnection {
  peer : string;
  first : request;
  more : list request
}.

(** The library and operating-system functions the handler calls and the
    model leaves uninterpreted. *)
Record platform : Type := mkPlatform {
  getcwd : string;
  version_string : string;
  responses : Z -> option (string * string);
  error_content : Z -> string -> string -> string;
  translate_path : string -> string;
  urlsplit_path : string -> string;
  url_with_slash : string -> string;
  isdir : string -> bool;
  isfile : string -> bool;
  open_rb : string -> open_result;
  listing : string -> string -> option string;
  listing_content_type : string;
  guess_type : string -> string;
  formatdate : Z -> string;
  bind_socket : string -> Z -> outcome unit;
  format_exc : exn -> string
}.

(** The two methods the script overrides, as a method table: the inherited
    methods call them through [self]. *)
Record handler_class : Type := mkClass {
  cls_end_headers : handler -> M unit;
  cls_log_message : handler -> string -> list pyval -> M unit
}.

(** ** [http.server.BaseHTTPRequestHandler]: the inherited methods *)

Module BaseHTTPRequestHandler.
Section Methods.
Variable P : platform.
Variable cls : handler_class.

Definition protocol_version : string := "HTTP/1.0".
Definition error_content_type : string := "text/html;charset=utf-8".

(** [self._headers_buffer.append(line)], the list being created when the
    attribute is absent. *)
Definition buffer_append (line : string) : M unit :=
  modify (fun st =>
    set_headers_buffer
      (Some ((match _headers_buffer st with Some b => b | None => [] end) ++ [line])%list) st).

Definition send_response_only (self : handler) (code : Z) (message : option string)
  : M unit :=
  if negb (String.eqb (request_version self) "HTTP/0.9") then
    let message :=
      match message with
      | Some m => m
      | None =>
          match responses P code with
          | Some (shortmsg, _) => shortmsg
          | None => EmptyString
          end
      end in
    buffer_append (protocol_version ++ " " ++ str_int code ++ " " ++ message ++ CRLF)
  else ret tt.

Definition send_header (self : handler) (keyword value : string) : M unit :=
  (if negb (String.eqb (request_version self) "HTTP/0.9")
   then buffer_append (keyword ++ ": " ++ value ++ CRLF)
   else ret tt) ;;
  if String.eqb (str_lower keyword) "connection" then
    if String.eqb (str_lower value) "close" then modify (set_close_connection true)
    else if String.eqb (str_lower value) "keep-alive" then modify (set_close_connection false)
    else ret tt
  else ret tt.

Definition flush_headers (self : handler) : M unit :=
  b <- gets _headers_buffer ;;
  match b with
  | Some lines => wfile_write (join lines) ;; modify (set_headers_buffer (Some []))
  | None => ret tt
  end.

(** The inherited [end_headers]: appending to an absent buffer raises
    [AttributeError]. *)
Definition end_headers (self : handler) : M unit :=
  if negb (String.eqb (request_version self) "HTTP/0.9") then
    b <- gets _headers_buffer ;;
    match b with
    | Some lines => modify (set_headers_buffer (Some (lines ++ [CRLF])%list)) ;; flush_headers self
    | None => raise AttributeError
    end
  else ret tt.

(** [log_request(code)], the size being left at its default ['-']. *)
Definition log_request (self : handler) (code : Z) : M unit :=
  cls_log_message cls self (DQUOTE ++ "%s" ++ DQUOTE ++ " %s %s")
    [PyStr (requestline self); PyStr (str_int code); PyStr "-"].

Definition log_error (self : handler) (format : string) (args : list pyval) : M unit :=
  cls_log_message cls self format args.

(** [message.translate(self._control_char_table)] *)
Definition translate_char (c : ascii) : string :=
  let n := N_of_ascii c in
  if Ascii.eqb c "092"%char then BACKSLASH ++ BACKSLASH
  else if ((n <? 32) || (127 <=? n) && (n <? 160))%N then hex_escape c
  else String c EmptyString.

Fixpoint translate (s : string) : string :=
  match s with
  | EmptyString => EmptyString
  | String c rest => translate_char c ++ translate rest
  end.

(** The inherited [log_message], which the script overrides: the line goes
    to standard error. *)
Definition log_message (self : handler) (format : string) (args : list pyval) : M unit :=
  message <- lift (str_mod format args) ;;
  stderr_write (address_string self ++ " - - [" ++ log_date_time_string self ++ "] "
                ++ translate message ++ LF).

Definition send_response (self : handler) (code : Z) (message : option string) : M unit :=
  log_request self code ;;
  send_response_only self code message ;;
  send_header self "Server" (version_string P) ;;
  send_header self "Date" (date_time_string self).

(** Codes whose responses carry no body. *)
Definition has_body (code : Z) : bool :=
  (200 <=? code) && negb ((code =? 204) || (code =? 205) || (code =? 304)).

Definition send_error (self : handler) (code : Z) (message : option string) : M unit :=
  let '(shortmsg, longmsg) :=
    match responses P code with
    | Some r => r
    | None => ("???", "???")
    end in
  let message := match message with Some m => m | None => shortmsg end in
  let explain := longmsg in
  log_error self "code %d, message %s" [PyInt code; PyStr message] ;;
  send_response self code (Some message) ;;
  send_header self "Connection" "close" ;;
  body <-
    (if has_body code then
       let body := error_content P code message explain in
       send_header self "Content-Type" error_content_type ;;
       send_header self "Content-Length" (str_int (len body)) ;;
       ret (Some body)
     else ret None) ;;
  cls_end_headers cls self ;;
  match body with
  | Some b =>
      if negb (String.eqb (command self) "HEAD") && negb (String.eqb b EmptyString)
      then wfile_write b
      else ret tt
  | None => ret tt
  end.

End Methods.
End BaseHTTPRequestHandler.

(** ** [http.server.SimpleHTTPRequestHandler] *)

Module SimpleHTTPRequestHandler.
Import BaseHTTPRequestHandler.
Section Methods.
Variable P : platform.
Variable cls : handler_class.

(** Returns the bytes of the listing, the "file object" of the source. *)
Definition list_directory (self : handler) (fspath : string) : M (option string) :=
  match listing P fspath (path self) with
  | None =>
      send_error P cls self 404 (Some "No permission to list directory") ;;
      ret None
  | Some encoded =>
      send_response P cls self 200 None ;;
      send_header self "Content-type" (listing_content_type P) ;;
      send_header self "Content-Length" (str_int (len encoded)) ;;
      cls_end_headers cls self ;;
      ret (Some encoded)
  end.

(** The conditional-GET test of [send_head]: the request has an
    [If-Modified-Since] and no [If-None-Match], the date parses, is naive
    or in UTC, and the file is not newer. *)
Definition not_modified (self : handler) (f : file) : bool :=
  match If_Modified_Since self with
  | Some d =>
      if negb (If_None_Match self) then
        match d with
        | IllFormed => false
        | Naive ims | UTC ims => st_mtime f <=? ims
        | OtherZone _ => false
        end
      else false
  | None => false
  end.

(** The file served, after a directory has been replaced by its index; of
    the exceptions of [open] only [OSError] is caught. *)
Definition serve_file (self : handler) (fspath : string) : M (option string) :=
  let ctype := guess_type P fspath in
  if str_endswith fspath "/" then
    send_error P cls self 404 (Some "File not found") ;; ret None
  else
    match open_rb P fspath with
    | OpenOSError => send_error P cls self 404 (Some "File not found") ;; ret None
    | OpenValueError => raise ValueError
    | Opened f =>
        if not_modified self f then
          send_response P cls self 304 None ;;
          cls_end_headers cls self ;;
          ret None
        else
          send_response P cls self 200 None ;;
          send_header self "Content-type" ctype ;;
          send_header self "Content-Length" (str_int (len (content f))) ;;
          send_header self "Last-Modified" (formatdate P (st_mtime f)) ;;
          cls_end_headers cls self ;;
          ret (Some (content f))
    end.

Definition send_head (self : handler) : M (option string) :=
  let fspath := translate_path P (path self) in
  if isdir P fspath then
    if negb (str_endswith (urlsplit_path P (path self)) "/") then
      send_response P cls self 301 None ;;
      send_header self "Location" (url_with_slash P (path self)) ;;
      send_header self "Content-Length" "0" ;;
      cls_end_headers cls self ;;
      ret None
    else if isfile P (path_join fspath "index.html") then
      serve_file self (path_join fspath "index.html")
    else if isfile P (path_join fspath "index.htm") then
      serve_file self (path_join fspath "index.htm")
    else list_directory self fspath
  else serve_file self fspath.

(** [shutil.copyfileobj]: the blocks read are written as they come, here as
    one chunk; an empty source writes nothing. *)
Definition copyfile (source : string) : M unit :=
  if String.eqb source EmptyString then ret tt else wfile_write source.

Definition do_GET (self : handler) : M unit :=
  f <- send_head self ;;
  match f with
  | Some bytes => copyfile bytes
  | None => ret tt
  end.

Definition do_HEAD (self : handler) : M unit :=
  f <- send_head self ;;
  ret tt.

End Methods.

Section Handle.
Variable P : platform.
Variable cls : handler_class.

(** [handle_one_request], the [do_] methods of the class being [do_GET]
    and [do_HEAD]. *)
Definition handle_one_request (r : request) : M unit :=
  match r with
  | NoRequest => modify (set_close_connection true)
  | TimedOut self e =>
      log_error cls self "Request timed out: %r" [e] ;;
      modify (set_close_connection true)
  | Rejected self code message => send_error P cls self code message
  | Parsed self =>
      if String.eqb (command self) "GET" then do_GET P cls self
      else if String.eqb (command self) "HEAD" then do_HEAD P cls self
      else send_error P cls self 501
             (Some ("Unsupported method (" ++ repr_str (command self) ++ ")"))
  end.

(** The [while not self.close_connection] loop of [handle]. *)
Fixpoint handle_more (rs : list request) : M unit :=
  match rs with
  | [] => ret tt
  | r :: rest =>
      closed <- gets close_connection ;;
      if closed then ret tt
      else handle_one_request r ;; handle_more rest
  end.

Definition handle (c : connection) : M unit :=
  modify (set_close_connection true) ;;
  handle_one_request (first c) ;;
  handle_more (more c).

End Handle.
End SimpleHTTPRequestHandler.

(** ** [dev_server.py]: the handler class *)

Module NoCacheHTTPRequestHandler.

Definition end_headers (self : handler) : M unit :=
  BaseHTTPRequestHandler.send_header self "Cache-Control"
    "no-store, no-cache, must-revalidate, max-age=0" ;;
  BaseHTTPRequestHandler.send_header self "Pragma" "no-cache" ;;
  BaseHTTPRequestHandler.send_header self "Expires" "0" ;;
  BaseHTTPRequestHandler.end_headers self.

Definition log_message (self : handler) (format : string) (args : list pyval) : M unit :=
  status_code <- getitem args 1 ;;
  status_color <-
    (is2 <- startswith status_code "2" ;;
     if is2 then ret (ESC ++ "[92m") else
     is3 <- startswith status_code "3" ;;
     if is3 then ret (ESC ++ "[94m") else
     is4 <- startswith status_code "4" ;;
     if is4 then ret (ESC ++ "[93m") else
     is5 <- startswith status_code "5" ;;
     if is5 then ret (ESC ++ "[91m") else
     ret (ESC ++ "[0m")) ;;
  let reset_color := ESC ++ "[0m" in
  message <- lift (str_mod format args) ;;
  print (address_string self ++ " - - [" ++ log_date_time_string self ++ "] "
         ++ status_color ++ message ++ reset_color).

End NoCacheHTTPRequestHandler.

Definition PORT : Z := 8000.

(** [Handler = NoCacheHTTPRequestHandler]: the class with its two overrides. *)
Definition Handler : handler_class :=
  mkClass NoCacheHTTPRequestHandler.end_headers NoCacheHTTPRequestHandler.log_message.

(** The class the script derives from, with the inherited methods in both
    places. *)
Definition PlainHandler : handler_class :=
  mkClass BaseHTTPRequestHandler.end_headers BaseHTTPRequestHandler.log_message.

(** ** [socketserver.TCPServer] *)

Module socketserver.
Import SimpleHTTPRequestHandler.

Inductive thread : Type :=
| MainThread
| Thread (n : nat).

(** What the server does with connection number [c], and on which thread. *)
Inductive action : Type :=
| Accept (c : nat) (t : thread)
| Begin (c : nat) (t : thread)
| Shutdown (c : nat) (t : thread).

(** A server object: the console and handler state, whether the listening
    socket is open, the actions so far and the chunks sent on each
    connection. *)
Record server : Type := mkServer {
  console : state;
  socket_open : bool;
  schedule : list action;
  sent : list (list string)
}.

Inductive loop_result : Type :=
| Selecting
| Raised (e : exn).

(** What reaches a serving process: a connection on the listening socket or
    the interrupt signal, which Python turns into [KeyboardInterrupt]. *)
Inductive input : Type :=
| Connect (c : connection)
| SIGINT.

Section Server.
Variable P : platform.
Variable RequestHandlerClass : handler_class.

(** [finish_request]: a handler instance is made for the connection, with
    its own [wfile] and no header buffer, and its constructor calls
    [handle]. *)
Definition finish_request (c : connection) : M unit :=
  modify (fun st => set_wfile [] (set_headers_buffer None st)) ;;
  handle P RequestHandlerClass c.

Definition handle_error (c : connection) (e : exn) : M unit :=
  stderr_write "----------------------------------------" ;;
  stderr_write ("Exception occurred during processing of request from " ++ peer c) ;;
  stderr_write (format_exc P e) ;;
  stderr_write "----------------------------------------".

Definition record_action (a : action) (srv : server) : server :=
  mkServer (console srv) (socket_open srv) (schedule srv ++ [a]) (sent srv).

(** [BaseServer.process_request], which [TCPServer] does not override:
    the handler runs to its end on the calling thread [t]. *)
Definition process_request (t : thread) (c : connection) (srv : server)
  : outcome unit * server :=
  let id := List.length (sent srv) in
  let srv := record_action (Begin id t) srv in
  let '(o, st) := finish_request c (console srv) in
  (o, mkServer st (socket_open srv) (schedule srv) (sent srv ++ [wfile st])).

(** [_handle_request_noblock]: an [Exception] of the handler is reported
    and swallowed, any other exception goes on; the connection is shut
    down in every case. *)
Definition _handle_request_noblock (t : thread) (c : connection) (srv : server)
  : outcome unit * server :=
  let id := List.length (sent srv) in
  let srv := record_action (Accept id t) srv in
  match process_request t c srv with
  | (Ok _, srv) => (Ok tt, record_action (Shutdown id t) srv)
  | (Raise KeyboardInterrupt, srv) =>
      (Raise KeyboardInterrupt, record_action (Shutdown id t) srv)
  | (Raise e, srv) =>
      let '(_, st) := handle_error c e (console srv) in
      (Ok tt, record_action (Shutdown id t)
                (mkServer st (socket_open srv) (schedule srv) (sent srv)))
  end.

(** [serve_forever], called on thread [t]: the loop takes what arrives in
    order and ends only by an exception; with nothing left to take it is
    blocked in [select]. *)
Fixpoint serve_forever (t : thread) (inputs : list input) (srv : server)
  : loop_result * server :=
  match inputs with
  | [] => (Selecting, srv)
  | SIGINT :: _ => (Raised KeyboardInterrupt, srv)
  | Connect c :: rest =>
      match _handle_request_noblock t c srv with
      | (Ok _, srv) => serve_forever t rest srv
      | (Raise e, srv) => (Raised e, srv)
      end
  end.

Definition server_close (srv : server) : server :=
  mkServer (console srv) false (schedule srv) (sent srv).

End Server.
End socketserver.

(** ** [dev_server.py]: the script *)

Import SimpleHTTPRequestHandler socketserver.

Inductive status : Type :=
| Running
| Exited (code : Z).

Record process : Type := mkProcess {
  httpd : server;
  exit_status : status
}.

Definition initial_state : state := mkState [] [] None [] true.

(** An exception nobody catches: the interpreter prints the traceback on
    standard error and exits with status 1. *)
Definition uncaught (P : platform) (e : exn) (srv : server) : process :=
  let '(_, st) := stderr_write (format_exc P e) (console srv) in
  mkProcess (mkServer st (socket_open srv) (schedule srv) (sent srv)) (Exited 1).

(** The module body, run as the main thread of a process that then receives
    [inputs]. *)
Definition dev_server (P : platform) (inputs : list input) : process :=
  let '(_, st) :=
    (print (ESC ++ "[1;32mStarting server at http://localhost:" ++ str_int PORT
            ++ ESC ++ "[0m") ;;
     print (ESC ++ "[1;33mPress Ctrl+C to stop the server" ++ ESC ++ "[0m") ;;
     print (ESC ++ "[1;34mServing files from: " ++ getcwd P ++ ESC ++ "[0m") ;;
     print (ESC ++ "[1;36mNo-cache headers enabled - browser will request fresh files on each reload"
            ++ ESC ++ "[0m")) initial_state in
  match bind_socket P EmptyString PORT with
  | Raise e => uncaught P e (mkServer st false [] [])
  | Ok _ =>
      let srv := mkServer st true [] [] in
      match serve_forever P Handler MainThread inputs srv with
      | (Selecting, srv) => mkProcess srv Running
      | (Raised KeyboardInterrupt, srv) =>
          let '(_, st) :=
            print (LF ++ ESC ++ "[1;31mServer stopped" ++ ESC ++ "[0m") (console srv) in
          mkProcess
            (server_close (mkServer st (socket_open srv) (schedule srv) (sent srv)))
            (Exited 0)
      | (Raised e, srv) => uncaught P e (server_close srv)
      end
  end.

(** ** A concrete platform and concrete requests

    Used to run the model: a working directory with one script file, an
    [assets] directory without index and nothing else. *)

Definition sample_responses (code : Z) : option (string * string) :=
  if code =? 200 then Some ("OK", "Request fulfilled, document follows")
  else if code =? 301 then Some ("Moved Permanently", "Object moved permanently")
  else if code =? 304 then Some ("Not Modified", "Document has not changed since given time")
  else if code =? 400 then Some ("Bad Request", "Bad request syntax or unsupported method")
  else if code =? 404 then Some ("Not Found", "Nothing matches the given URI")
  else if code =? 501 then Some ("Not Implemented", "Server does not support this operation")
  else None.

Definition sample_platform : platform :=
  {| getcwd := "/home/dev/hexaequo";
     version_string := "SimpleHTTP/0.6 Python/3.11.2";
     responses := sample_responses;
     error_content := fun code message explain =>
       "<p>Error code: " ++ str_int code ++ "</p><p>Message: " ++ message ++ ".</p>";
     translate_path := fun p =>
       if String.eqb p "/%00" then "/home/dev/hexaequo/" ++ String "000"%char EmptyString
       else "/home/dev/hexaequo" ++ p;
     urlsplit_path := fun p => p;
     url_with_slash := fun p => p ++ "/";
     isdir := fun p => String.eqb p "/home/dev/hexaequo/assets"
                       || String.eqb p "/home/dev/hexaequo/assets/";
     isfile := fun p => String.eqb p "/home/dev/hexaequo/app.js";
     open_rb := fun p =>
       if String.eqb p "/home/dev/hexaequo/app.js"
       then Opened (mkFile "console.log(1);" 1700000000)
       else if contains_char "000"%char p then OpenValueError
       else OpenOSError;
     listing := fun p _ => Some "<ul><li>logo.png</li></ul>";
     listing_content_type := "text/html; charset=utf-8";
     guess_type := fun p => if str_endswith p ".js" then "text/javascript"
                            else "application/octet-stream";
     formatdate := fun t => "Tue, 14 Nov 2023 22:13:20 GMT";
     bind_socket := fun _ _ => Ok tt;
     format_exc := fun e => "Traceback (most recent call last): ..." |}.

(** The same machine with port 8000 taken. *)
Definition busy_platform : platform :=
  {| getcwd := getcwd sample_platform;
     version_string := version_string sample_platform;
     responses := responses sample_platform;
     error_content := error_content sample_platform;
     translate_path := translate_path sample_platform;
     urlsplit_path := urlsplit_path sample_platform;
     url_with_slash := url_with_slash sample_platform;
     isdir := isdir sample_platform;
     isfile := isfile sample_platform;
     open_rb := open_rb sample_platform;
     listing := listing sample_platform;
     listing_content_type := listing_content_type sample_platform;
     guess_type := guess_type sample_platform;
     formatdate := formatdate sample_platform;
     bind_socket := fun _ _ => Raise OSError;
     format_exc := fun e => "OSError: [Errno 98] Address already in use" |}.

Definition sample_handler (cmd target version : string) (ims : option ims_date) : handler :=
  {| client_address := "127.0.0.1";
     requestline := cmd ++ " " ++ target ++ " " ++ version;
     command := cmd;
     path := target;
     request_version := version;
     If_Modified_Since := ims;
     If_None_Match := false;
     log_date_time_string := "04/Nov/2026 10:00:00";
     date_time_string := "Wed, 04 Nov 2026 09:00:00 GMT" |}.

Definition get_app : request := Parsed (sample_handler "GET" "/app.js" "HTTP/1.1" None).
Definition get_missing : request := Parsed (sample_handler "GET" "/nope.js" "HTTP/1.1" None).
Definition get_assets : request := Parsed (sample_handler "GET" "/assets" "HTTP/1.1" None).
Definition post_app : request := Parsed (sample_handler "POST" "/app.js" "HTTP/1.1" None).
Definition get_nul : request := Parsed (sample_handler "GET" "/%00" "HTTP/1.1" None).

(** The request line [GET /app.js FOO/1.1]: [parse_request] refuses the
    version while [request_version] still holds the default [HTTP/0.9] and
    [command] is still [None], here the empty string. *)
Definition bad_version : request :=
  Rejected
    {| client_address := "127.0.0.1";
       requestline := "GET /app.js FOO/1.1";
       command := EmptyString;
       path := EmptyString;
       request_version := "HTTP/0.9";
       If_Modified_Since := None;
       If_None_Match := false;
       log_date_time_string := "04/Nov/2026 10:00:00";
       date_time_string := "Wed, 04 Nov 2026 09:00:00 GMT" |}
    400 (Some "Bad request version ('FOO/1.1')").

Definition one (r : request) : connection := mkConnection "('127.0.0.1', 50000)" r [].

(** ** Vocabulary of the properties *)

Definition green : string := ESC ++ "[92m".
Definition blue : string := ESC ++ "[94m".
Definition yellow : string := ESC ++ "[93m".
Definition red : string := ESC ++ "[91m".
Definition default_color : string := ESC ++ "[0m".
Definition reset : string := ESC ++ "[0m".

Definition bold_green : string := ESC ++ "[1;32m".
Definition bold_yellow : string := ESC ++ "[1;33m".
Definition bold_blue : string := ESC ++ "[1;34m".
Definition bold_cyan : string := ESC ++ "[1;36m".
Definition bold_red : string := ESC ++ "[1;31m".

(** The colour table of the specification, read off the first character of
    the status field. *)
Definition status_class_color (status : string) : string :=
  match status with
  | EmptyString => default_color
  | String c _ =>
      if Ascii.eqb c "2" then green
      else if Ascii.eqb c "3" then blue
      else if Ascii.eqb c "4" then yellow
      else if Ascii.eqb c "5" then red
      else default_color
  end.

(** A log line as the script prints it: the colour starts after the address
    and the timestamp. *)
Definition log_line (self : handler) (color message : string) : string :=
  address_string self ++ " - - [" ++ log_date_time_string self ++ "] "
  ++ color ++ message ++ reset.

(** A log line coloured from its first character on, as the specification
    describes it. *)
Definition wholly_colored_line (self : handler) (color message : string) : string :=
  color ++ address_string self ++ " - - [" ++ log_date_time_string self ++ "] "
  ++ message ++ reset.

(** The access-log line of [log_request] and the error line of [send_error]. *)
Definition access_log (self : handler) (code : Z) : string :=
  log_line self (status_class_color (str_int code))
    (DQUOTE ++ requestline self ++ DQUOTE ++ " " ++ str_int code ++ " -").

Definition error_log (self : handler) (code : Z) (message : string) : string :=
  log_line self (status_class_color message)
    ("code " ++ str_int code ++ ", message " ++ message).

Definition header_line (keyword value : string) : string :=
  keyword ++ ": " ++ value ++ CRLF.

Definition status_line (code : Z) (message : string) : string :=
  "HTTP/1.0 " ++ str_int code ++ " " ++ message ++ CRLF.

(** The three cache-disabling headers, as sent. *)
Definition no_cache_headers : list string :=
  [ header_line "Cache-Control" "no-store, no-cache, must-revalidate, max-age=0";
    header_line "Pragma" "no-cache";
    header_line "Expires" "0" ].

(** The lines waiting in the header buffer. *)
Definition buffered (st : state) : list string :=
  match _headers_buffer st with
  | Some b => b
  | None => []
  end.

(** The header block of a response: the lines set by the handler, the three
    cache-disabling headers, the blank line. *)
Definition header_block (lines : list string) : string :=
  join (lines ++ no_cache_headers ++ [CRLF]).

Definition is_header_line (l : string) : Prop :=
  exists keyword value, l = header_line keyword value.

(** The start-up banner of the specification. *)
Definition banner (P : platform) : list string :=
  [ bold_green ++ "Starting server at http://localhost:8000" ++ reset;
    bold_yellow ++ "Press Ctrl+C to stop the server" ++ reset;
    bold_blue ++ "Serving files from: " ++ getcwd P ++ reset;
    bold_cyan ++ "No-cache headers enabled - browser will request fresh files on each reload"
      ++ reset ].

Definition server_stopped : string := LF ++ bold_red ++ "Server stopped" ++ reset.

Definition out (p : process) : list string := stdout (console (httpd p)).
Definition err (p : process) : list string := stderr (console (httpd p)).

Definition is_connect (i : input) : bool :=
  match i with
  | Connect _ => true
  | SIGINT => false
  end.

(** [sub in s]. *)
Fixpoint str_contains (sub s : string) : bool :=
  str_startswith s sub
  || match s with
     | EmptyString => false
     | String _ rest => str_contains sub rest
     end.

(** Every line the logger prints holds the separator that follows the
    client address. *)
Definition is_log_line (l : string) : bool := str_contains " - - [" l.


(** The state after a response: [logs] printed, the header block made of the
    buffered lines and [lines] sent, then [body]; an HTTP/0.9 response has no
    header block. *)
Definition answered (self : handler) (st : state) (logs lines body : list string)
    (closing : bool) : state :=
  if String.eqb (request_version self) "HTTP/0.9"
  then mkState (stdout st ++ logs) (stderr st) (_headers_buffer st)
               (wfile st ++ body) (closing || close_connection st)
  else mkState (stdout st ++ logs) (stderr st) (Some [])
               (wfile st ++ header_block (buffered st ++ lines) :: body)
               (closing || close_connection st).

(** [message] as [send_response_only] and [send_error] resolve it. *)
Definition reason (P : platform) (code : Z) (message : option string) : string :=
  match message with
  | Some m => m
  | None =>
      match responses P code with
      | Some (shortmsg, _) => shortmsg
      | None => EmptyString
      end
  end.

Definition chunk (b : string) : list string :=
  if String.eqb b EmptyString then [] else [b].

(** The short and long message of a status code, as [send_error] looks them
    up. *)
Definition lookup (P : platform) (code : Z) : string * string :=
  match responses P code with
  | Some r => r
  | None => ("???", "???")
  end.

Definition error_message (P : platform) (code : Z) (message : option string) : string :=
  match message with
  | Some m => m
  | None => fst (lookup P code)
  end.

Definition error_page (P : platform) (code : Z) (message : option string) : string :=
  error_content P code (error_message P code message) (snd (lookup P code)).

(** Status line and headers of an error response, before the cache-disabling
    headers. *)
Definition error_lines (P : platform) (self : handler) (code : Z) (message : option string)
  : list string :=
  [ status_line code (error_message P code message);
    header_line "Server" (version_string P);
    header_line "Date" (date_time_string self);
    header_line "Connection" "close" ]
  ++ (if BaseHTTPRequestHandler.has_body code
      then [ header_line "Content-Type" "text/html;charset=utf-8";
             header_line "Content-Length" (str_int (len (error_page P code message))) ]
      else []).

Definition error_body (P : platform) (self : handler) (code : Z) (message : option string)
  : list string :=
  if BaseHTTPRequestHandler.has_body code && negb (String.eqb (command self) "HEAD")
  then chunk (error_page P code message)
  else [].

Definition error_logs (P : platform) (self : handler) (code : Z) (message : option string)
  : list string :=
  [ error_log self code (error_message P code message); access_log self code ].

(** State transformers: lines printed, header lines buffered (nothing is
    buffered for an HTTP/0.9 request), the header block flushed with the
    cache-disabling headers, chunks written. *)
Definition logged (logs : list string) (st : state) : state :=
  set_stdout (stdout st ++ logs) st.

Definition buffering (self : handler) (lines : list string) (st : state) : state :=
  if String.eqb (request_version self) "HTTP/0.9" then st
  else set_headers_buffer (Some (buffered st ++ lines)%list) st.

Definition flushing (self : handler) (st : state) : state :=
  if String.eqb (request_version self) "HTTP/0.9" then st
  else set_headers_buffer (Some []) (set_wfile (wfile st ++ [header_block (buffered st)]) st).

Definition writing (chunks : list string) (st : state) : state :=
  set_wfile (wfile st ++ chunks) st.

(** Status line and headers of the inherited handler's successful replies. *)
Definition reply_head (P : platform) (self : handler) (code : Z) : list string :=
  [ status_line code (reason P code None);
    header_line "Server" (version_string P);
    header_line "Date" (date_time_string self) ].

Definition file_lines (P : platform) (self : handler) (fspath : string) (f : file)
  : list string :=
  reply_head P self 200
  ++ [ header_line "Content-type" (guess_type P fspath);
       header_line "Content-Length" (str_int (len (content f)));
       header_line "Last-Modified" (formatdate P (st_mtime f)) ].

Definition redirect_lines (P : platform) (self : handler) : list string :=
  reply_head P self 301
  ++ [ header_line "Location" (url_with_slash P (path self));
       header_line "Content-Length" "0" ].

Definition listing_lines (P : platform) (self : handler) (encoded : string) : list string :=
  reply_head P self 200
  ++ [ header_line "Content-type" (listing_content_type P);
       header_line "Content-Length" (str_int (len encoded)) ].

(** The two shapes a reply takes: one access-log line and a status line with
    headers, or, when [send_error] answers, the error line before the
    access-log line. *)
Inductive reply_shape (self : handler) : list string -> list string -> Prop :=
| plain_reply (code : Z) (message : string) (headers : list string) :
    In code [200; 301; 304] ->
    Forall is_header_line headers ->
    reply_shape self [access_log self code] (status_line code message :: headers)
| error_reply (code : Z) (message : string) (headers : list string) :
    Forall is_header_line headers ->
    reply_shape self [error_log self code message; access_log self code]
                (status_line code message :: headers).

(** The replies to a parsed request: the static handler answers 200, 301 or
    304 with one access-log line, and 404 or 501 through [send_error], with
    the error line before the access-log line. *)
Inductive static_reply (self : handler) : list string -> list string -> Prop :=
| served (code : Z) (message : string) (headers : list string) :
    In code [200; 301; 304] ->
    Forall is_header_line headers ->
    static_reply self [access_log self code] (status_line code message :: headers)
| refused (code : Z) (message : string) (headers : list string) :
    In code [404; 501] ->
    Forall is_header_line headers ->
    static_reply self [error_log self code message; access_log self code]
                 (status_line code message :: headers).

(** The actions of a server that handles connection [c] from accept to
    shutdown on thread [t], and of one that does so for the first [n]
    connections, one after the other. *)
Definition in_turn (t : thread) (c : nat) : list action :=
  [Accept c t; Begin c t; Shutdown c t].

Definition sequential (t : thread) (first_id n : nat) : list action :=
  flat_map (in_turn t) (seq first_id n).

(** The inputs a serving process takes before the first interrupt. *)
Fixpoint until_interrupt (inputs : list input) : list input :=
  match inputs with
  | Connect c :: rest => Connect c :: until_interrupt rest
  | _ => []
  end.

(** ** Statements of the specification that the code does not meet *)

(** "Every response the server sends, whatever its status code, contains the
    three cache-disabling headers": the block that the response starts with
    holds the three lines, followed by the blank line. *)
Definition carries_no_cache_headers (response : list string) : bool :=
  match response with
  | block :: _ => str_contains (join (no_cache_headers ++ [CRLF])) block
  | [] => false
  end.

Definition every_response_carries_no_cache_headers (P : platform) (inputs : list input)
  : Prop :=
  forall response,
    In response (sent (httpd (dev_server P inputs))) ->
    response <> [] ->
    carries_no_cache_headers response = true.


(** "The entire message, client address and timestamp included, is wrapped
    in the colour of the status class." *)
Definition colors_whole_line (self : handler) (format : string) (args : list pyval)
    (st : state) : Prop :=
  forall s message,
    nth_error args 1 = Some (PyStr s) ->
    str_mod format args = Ok message ->
    stdout (snd (NoCacheHTTPRequestHandler.log_message self format args st))
    = (stdout st ++ [wholly_colored_line self (status_class_color s) message])%list.


(** "Each accepted connection is handled on its own thread." *)
Definition own_thread_per_connection (actions : list action) : Prop :=
  forall c1 c2 t1 t2,
    In (Begin c1 t1) actions -> In (Begin c2 t2) actions -> c1 <> c2 -> t1 <> t2.

(** "With at least two arguments, the second a string, [log_message] never
    raises." *)
Definition never_raises (self : handler) (format : string) (args : list pyval)
    (st : state) : Prop :=
  (2 <= List.length args)%nat ->
  (exists s, nth_error args 1 = Some (PyStr s)) ->
  exists st', NoCacheHTTPRequestHandler.log_message self format args st = (Ok tt, st').

(** The access-log call that [send_response] makes for the request
    [GET /app.js HTTP/1.1], answered 200. *)
Definition access_format : string := DQUOTE ++ "%s" ++ DQUOTE ++ " %s %s".
Definition access_args : list pyval :=
  [PyStr "GET /app.js HTTP/1.1"; PyStr "200"; PyStr "-"].
Definition app_handler : handler := sample_handler "GET" "/app.js" "HTTP/1.1" None.

(** ** Vocabulary of the further properties *)

(** The colour of a numeric status by its class, as the comments of
    [log_message] name them. *)
Definition range_color (code : Z) : string :=
  if code <? 200 then default_color
  else if code <? 300 then green
  else if code <? 400 then blue
  else if code <? 500 then yellow
  else red.

(** The connections a serving process takes before the first interrupt. *)
Fixpoint connections (inputs : list input) : list connection :=
  match inputs with
  | Connect c :: rest => c :: connections rest
  | _ => []
  end.

(** The connections whose first read timed out. *)
Definition timed_out (c : connection) : bool :=
  match first c with
  | TimedOut _ _ => true
  | _ => false
  end.

(** What a handler of the script's class sends on a connection it is the
    first to serve. *)
Definition reply_to (P : platform) (c : connection) : list string :=
  wfile (snd (finish_request P Handler c initial_state)).

(** What [handle_error] writes for exception [e] on connection [c]. *)
Definition error_report (P : platform) (c : connection) (e : exn) : list string :=
  [ "----------------------------------------";
    "Exception occurred during processing of request from " ++ peer c;
    format_exc P e;
    "----------------------------------------" ].

(** How the handler of connection [c] ends, and what standard error
    receives for it: the report of [handle_error] when the handler raised,
    nothing when it returned. *)
Definition handler_outcome (P : platform) (c : connection) : outcome unit :=
  fst (finish_request P Handler c initial_state).

Definition reported (P : platform) (c : connection) : list string :=
  match handler_outcome P c with
  | Ok _ => []
  | Raise e => error_report P c e
  end.


Definition timeout_error : pyval := PyObject "timed out" "TimeoutError('timed out')".

(** * Properties *)

Import BaseHTTPRequestHandler.

(** ** The logger, run *)

Lemma startswith_digit (c d : ascii) (rest : string) :
  str_startswith (String c rest) (String d EmptyString) = Ascii.eqb c d.
Proof.
  unfold str_startswith. simpl.
  destruct (ascii_dec d c) as [->|Hne].
  - rewrite Ascii.eqb_refl. destruct rest; reflexivity.
  - symmetry. apply Ascii.eqb_neq. congruence.
Qed.

Lemma append_empty_r (s : string) : s ++ EmptyString = s.
Proof. induction s as [|c s IH]; simpl; [reflexivity | now rewrite IH]. Qed.

Lemma log_message_run (self : handler) (format : string) (args : list pyval) (s : string)
      (st : state) :
  nth_error args 1 = Some (PyStr s) ->
  NoCacheHTTPRequestHandler.log_message self format args st =
  match str_mod format args with
  | Ok message =>
      (Ok tt, set_stdout (stdout st ++ [log_line self (status_class_color s) message]) st)
  | Raise e => (Raise e, st)
  end.
Proof.
  intros Hs.
  unfold NoCacheHTTPRequestHandler.log_message, getitem, bind.
  rewrite Hs. unfold ret at 1.
  assert (Hcol :
    (is2 <- startswith (PyStr s) "2";;
      (if is2 then ret (ESC ++ "[92m") else
       is3 <- startswith (PyStr s) "3";;
       (if is3 then ret (ESC ++ "[94m") else
        is4 <- startswith (PyStr s) "4";;
        (if is4 then ret (ESC ++ "[93m") else
         is5 <- startswith (PyStr s) "5";;
         (if is5 then ret (ESC ++ "[91m") else ret (ESC ++ "[0m"))))))%py st
    = (Ok (status_class_color s), st)).
  { unfold startswith, bind, ret. destruct s as [|c rest].
    - reflexivity.
    - rewrite !startswith_digit. unfold status_class_color.
      destruct (Ascii.eqb c "2"); [reflexivity|].
      destruct (Ascii.eqb c "3"); [reflexivity|].
      destruct (Ascii.eqb c "4"); [reflexivity|].
      destruct (Ascii.eqb c "5"); reflexivity. }
  unfold bind in Hcol. rewrite Hcol.
  unfold lift. destruct (str_mod format args); reflexivity.
Qed.

Lemma log_message_short (self : handler) (format : string) (args : list pyval) (st : state) :
  (List.length args < 2)%nat ->
  NoCacheHTTPRequestHandler.log_message self format args st = (Raise IndexError, st).
Proof.
  intros Hlen. unfold NoCacheHTTPRequestHandler.log_message, getitem, bind.
  destruct (nth_error args 1) eqn:E.
  - assert (nth_error args 1 <> None) as Hn by congruence.
    apply nth_error_Some in Hn. lia.
  - reflexivity.
Qed.

Lemma log_message_not_str (self : handler) (format : string) (args : list pyval)
      (v : pyval) (st : state) :
  nth_error args 1 = Some v ->
  (forall s, v <> PyStr s) ->
  NoCacheHTTPRequestHandler.log_message self format args st = (Raise AttributeError, st).
Proof.
  intros Hv Hns. unfold NoCacheHTTPRequestHandler.log_message, getitem, bind.
  rewrite Hv. destruct v as [s| |]; [destruct (Hns s eq_refl)| |]; reflexivity.
Qed.

Lemma log_request_run self code st :
  log_request Handler self code st
  = (Ok tt, set_stdout (stdout st ++ [access_log self code]) st).
Proof.
  unfold log_request. cbn [cls_log_message Handler].
  rewrite log_message_run with (s := str_int code) by reflexivity.
  reflexivity.
Qed.

Lemma log_error_run self code message st :
  log_error Handler self "code %d, message %s" [PyInt code; PyStr message] st
  = (Ok tt, set_stdout (stdout st ++ [error_log self code message]) st).
Proof.
  unfold log_error. cbn [cls_log_message Handler].
  rewrite log_message_run with (s := message) by reflexivity.
  cbn. rewrite append_empty_r. reflexivity.
Qed.

(** ** The inherited methods, run with the script's class *)

(** Equalities between states built from variables only. *)
Ltac state_eq :=
  intros;
  repeat match goal with
         | st : state |- _ => destruct st as [? ? [?|] ? ?]
         end;
  cbv [answered logged buffering flushing writing buffered
       set_stdout set_stderr set_headers_buffer set_wfile set_close_connection
       stdout stderr _headers_buffer wfile close_connection];
  repeat match goal with
         | |- context [String.eqb ?a ?b] => destruct (String.eqb a b)
         end;
  cbn [orb]; rewrite <- ?app_assoc, ?app_nil_r; cbn [app]; rewrite ?app_nil_r;
  reflexivity.

Lemma logged_logged l1 l2 st : logged l2 (logged l1 st) = logged (l1 ++ l2) st.
Proof. state_eq. Qed.

Lemma buffering_buffering self l1 l2 st :
  buffering self l2 (buffering self l1 st) = buffering self (l1 ++ l2) st.
Proof. state_eq. Qed.

Lemma buffering_closing self l st :
  buffering self l (set_close_connection true st)
  = set_close_connection true (buffering self l st).
Proof. state_eq. Qed.

Lemma answered_closing self st logs lines body :
  writing body (flushing self (set_close_connection true (buffering self lines (logged logs st))))
  = answered self st logs lines body true.
Proof. state_eq. Qed.

Lemma answered_open self st logs lines body :
  writing body (flushing self (buffering self lines (logged logs st)))
  = answered self st logs lines body false.
Proof. state_eq. Qed.

Lemma writing_nil st : writing [] st = st.
Proof. state_eq. Qed.

Lemma lower_not_connection (keyword : string) :
  In keyword ["Server"; "Date"; "Content-Type"; "Content-Length"; "Content-type";
              "Last-Modified"; "Location"; "Cache-Control"; "Pragma"; "Expires"] ->
  String.eqb (str_lower keyword) "connection" = false.
Proof.
  intros H. repeat (destruct H as [<-|H]; [vm_compute; reflexivity|]). destruct H.
Qed.

Lemma send_header_run self keyword value st :
  String.eqb (str_lower keyword) "connection" = false ->
  send_header self keyword value st
  = (Ok tt, buffering self [header_line keyword value] st).
Proof.
  intros K. unfold send_header, bind, buffering, buffer_append, modify, ret. rewrite K.
  destruct (String.eqb (request_version self) "HTTP/0.9"); reflexivity.
Qed.

Ltac headers :=
  cbv beta iota;
  repeat (rewrite send_header_run by (apply lower_not_connection; simpl; tauto);
          cbv beta iota).

Lemma send_header_close_run self st :
  send_header self "Connection" "close" st
  = (Ok tt, set_close_connection true (buffering self [header_line "Connection" "close"] st)).
Proof.
  unfold send_header, bind, buffering, buffer_append, modify, ret.
  replace (String.eqb (str_lower "Connection") "connection") with true
    by (vm_compute; reflexivity).
  replace (String.eqb (str_lower "close") "close") with true by (vm_compute; reflexivity).
  destruct (String.eqb (request_version self) "HTTP/0.9"); reflexivity.
Qed.

Lemma base_end_headers_run self st lines :
  _headers_buffer st = Some lines ->
  end_headers self st
  = (Ok tt, if String.eqb (request_version self) "HTTP/0.9" then st
            else set_headers_buffer (Some [])
                   (set_wfile (wfile st ++ [join (lines ++ [CRLF])]) st)).
Proof.
  intros Hb. unfold end_headers, flush_headers, bind, gets, modify, wfile_write, ret.
  destruct (String.eqb (request_version self) "HTTP/0.9"); cbn [negb]; [reflexivity|].
  rewrite Hb. destruct st as [o e b w c]. reflexivity.
Qed.

Lemma end_headers_run self st :
  NoCacheHTTPRequestHandler.end_headers self st = (Ok tt, flushing self st).
Proof.
  unfold NoCacheHTTPRequestHandler.end_headers, bind. headers.
  unfold buffering, flushing.
  destruct (String.eqb (request_version self) "HTTP/0.9") eqn:V.
  - unfold end_headers. rewrite V. reflexivity.
  - erewrite base_end_headers_run by reflexivity. rewrite V.
    destruct st as [o e b w c]. unfold header_block, no_cache_headers, buffered.
    cbv [set_stdout set_stderr set_headers_buffer set_wfile set_close_connection
         stdout stderr _headers_buffer wfile close_connection].
    rewrite <- !app_assoc. reflexivity.
Qed.

Lemma send_response_run P self code message st :
  send_response P Handler self code message st
  = (Ok tt,
     buffering self [status_line code (reason P code message);
                     header_line "Server" (version_string P);
                     header_line "Date" (date_time_string self)]
       (logged [access_log self code] st)).
Proof.
  unfold send_response, bind. rewrite log_request_run. cbv beta iota.
  unfold send_response_only, buffering, logged, buffer_append, modify, ret, reason, status_line,
    protocol_version.
  destruct (String.eqb (request_version self) "HTTP/0.9") eqn:V; cbn [negb]; headers;
    unfold buffering; rewrite V; [reflexivity|].
  destruct st as [o e [b|] w c];
    cbv [set_stdout set_stderr set_headers_buffer set_wfile set_close_connection
         stdout stderr _headers_buffer wfile close_connection buffered];
    rewrite <- ?app_assoc; reflexivity.
Qed.


Ltac tidy :=
  fold (logged);
  repeat first
    [ rewrite logged_logged
    | rewrite buffering_closing
    | rewrite buffering_buffering ];
  cbn [app].

Lemma send_error_run P self code message st :
  send_error P Handler self code message st
  = (Ok tt, answered self st (error_logs P self code message)
              (error_lines P self code message) (error_body P self code message) true).
Proof.
  unfold send_error, error_logs, error_lines, error_body, error_page, error_message, lookup.
  destruct (responses P code) as [[shortmsg longmsg]|]; cbn [fst snd];
  unfold bind; rewrite log_error_run; cbv beta iota;
  rewrite send_response_run; cbv beta iota;
  rewrite send_header_close_run; cbv beta iota;
  cbn [cls_end_headers Handler];
  change (set_stdout (stdout st ++ ?l) st) with (logged l st);
  (destruct (has_body code); cbn [andb];
   [ unfold bind; headers; unfold ret; rewrite end_headers_run; cbv beta iota;
     unfold error_content_type, reason, chunk;
     destruct (String.eqb (command self) "HEAD"); cbn [negb andb];
     [| match goal with |- context [String.eqb ?b EmptyString] =>
          destruct (String.eqb b EmptyString) end; cbn [negb] ]
   | unfold ret; cbv beta iota; rewrite end_headers_run; cbv beta iota; unfold reason ]);
  unfold wfile_write, modify;
  try match goal with |- (Ok tt, set_wfile (wfile ?x ++ ?b) ?x) = _ =>
        change (set_wfile (wfile x ++ b) x) with (writing b x) end;
  try match goal with |- (Ok tt, ?x) = (Ok tt, answered _ _ _ _ [] _) =>
        rewrite <- (writing_nil x) end;
  tidy; rewrite answered_closing; reflexivity.
Qed.


Lemma writing_answered self st logs lines body closing :
  writing body (answered self st logs lines [] closing)
  = answered self st logs lines body closing.
Proof. state_eq. Qed.

Ltac finish_reply :=
  unfold ret, reply_head, reason;
  change (set_stdout (stdout ?s ++ ?l) ?s) with (logged l s);
  tidy;
  match goal with
  | |- (Ok ?v, ?x) = (Ok ?v, answered _ _ _ _ [] _) => rewrite <- (writing_nil x)
  end;
  first [ rewrite answered_open | rewrite answered_closing ]; reflexivity.

Lemma serve_file_run P self fspath st :
  serve_file P Handler self fspath st
  = if str_endswith fspath "/" then
      (Ok None, answered self st (error_logs P self 404 (Some "File not found"))
                  (error_lines P self 404 (Some "File not found"))
                  (error_body P self 404 (Some "File not found")) true)
    else
      match open_rb P fspath with
      | OpenOSError =>
          (Ok None, answered self st (error_logs P self 404 (Some "File not found"))
                      (error_lines P self 404 (Some "File not found"))
                      (error_body P self 404 (Some "File not found")) true)
      | OpenValueError => (Raise ValueError, st)
      | Opened f =>
          if not_modified self f
          then (Ok None, answered self st [access_log self 304] (reply_head P self 304)
                           [] false)
          else (Ok (Some (content f)),
                answered self st [access_log self 200] (file_lines P self fspath f) [] false)
      end.
Proof.
  unfold serve_file, file_lines.
  destruct (str_endswith fspath "/").
  - unfold bind. rewrite send_error_run. reflexivity.
  - destruct (open_rb P fspath) as [f| |].
    + destruct (not_modified self f); unfold bind;
        rewrite send_response_run; cbv beta iota; cbn [cls_end_headers Handler]; headers;
        rewrite end_headers_run; cbv beta iota; finish_reply.
    + unfold bind. rewrite send_error_run. reflexivity.
    + reflexivity.
Qed.

Lemma list_directory_run P self fspath st :
  list_directory P Handler self fspath st
  = match listing P fspath (path self) with
    | None =>
        (Ok None,
         answered self st (error_logs P self 404 (Some "No permission to list directory"))
           (error_lines P self 404 (Some "No permission to list directory"))
           (error_body P self 404 (Some "No permission to list directory")) true)
    | Some encoded =>
        (Ok (Some encoded),
         answered self st [access_log self 200] (listing_lines P self encoded) [] false)
    end.
Proof.
  unfold list_directory, listing_lines.
  destruct (listing P fspath (path self)) as [encoded|]; unfold bind.
  - rewrite send_response_run; cbv beta iota; cbn [cls_end_headers Handler]; headers;
      rewrite end_headers_run; cbv beta iota; finish_reply.
  - rewrite send_error_run. reflexivity.
Qed.

Lemma redirect_run P self st :
  (send_response P Handler self 301 None ;;
   send_header self "Location" (url_with_slash P (path self)) ;;
   send_header self "Content-Length" "0" ;;
   cls_end_headers Handler self ;;
   ret (@None string)) st
  = (Ok None, answered self st [access_log self 301] (redirect_lines P self) [] false).
Proof.
  unfold bind, redirect_lines.
  rewrite send_response_run; cbv beta iota; cbn [cls_end_headers Handler]; headers;
    rewrite end_headers_run; cbv beta iota; finish_reply.
Qed.


Lemma header_line_is keyword value : is_header_line (header_line keyword value).
Proof. exists keyword, value. reflexivity. Qed.

Create HintDb reply.
#[local] Hint Resolve header_line_is : reply.
#[local] Hint Constructors Forall : reply.

Lemma error_reply_shape P self code message :
  reply_shape self (error_logs P self code message) (error_lines P self code message).
Proof.
  unfold error_logs, error_lines. cbn [app].
  apply error_reply. destruct (has_body code); cbn [app]; auto 10 with reply.
Qed.

Lemma refused_reply P self code message :
  In code [404; 501] ->
  static_reply self (error_logs P self code message) (error_lines P self code message).
Proof.
  intros Hc. unfold error_logs, error_lines. cbn [app].
  apply refused; [exact Hc|]. destruct (has_body code); cbn [app]; auto 10 with reply.
Qed.

Lemma served_reply P self code extra :
  In code [200; 301; 304] ->
  Forall is_header_line extra ->
  static_reply self [access_log self code] (reply_head P self code ++ extra).
Proof.
  intros Hc He. unfold reply_head. cbn [app].
  apply served; auto with reply.
Qed.

Lemma static_reply_shape self logs lines :
  static_reply self logs lines -> reply_shape self logs lines.
Proof.
  intros [code message headers Hc Hh | code message headers _ Hh].
  - apply plain_reply; assumption.
  - apply error_reply; assumption.
Qed.

Lemma chunk_length b : (List.length (chunk b) <= 1)%nat.
Proof. unfold chunk. destruct (String.eqb b EmptyString); simpl; lia. Qed.

Lemma error_body_length P self code message :
  (List.length (error_body P self code message) <= 1)%nat.
Proof.
  unfold error_body. destruct (_ && _); [apply chunk_length | simpl; lia].
Qed.

(** What [send_head] does, whatever the request and the files: it raises the
    [ValueError] of [open], in whatever state it starts and leaving that state
    as it was, or it sends one of the replies of the static handler, the same
    in whatever state it starts. *)
Lemma send_head_reply P self :
  (forall st, send_head P Handler self st = (Raise ValueError, st))
  \/ exists f logs lines body closing,
       static_reply self logs lines
       /\ (f <> None -> body = [])
       /\ (List.length body <= 1)%nat
       /\ forall st, send_head P Handler self st
                     = (Ok f, answered self st logs lines body closing).
Proof.
  assert (Hfile : forall fspath,
    (forall st, serve_file P Handler self fspath st = (Raise ValueError, st))
    \/ exists f logs lines body closing,
         static_reply self logs lines
         /\ (f <> None -> body = [])
         /\ (List.length body <= 1)%nat
         /\ forall st, serve_file P Handler self fspath st
                       = (Ok f, answered self st logs lines body closing)).
  { intros fspath.
    destruct (str_endswith fspath "/") eqn:Hs;
      [|destruct (open_rb P fspath) as [f| |] eqn:Ho; [destruct (not_modified self f) eqn:Hn| |]].
    - right. exists None, (error_logs P self 404 (Some "File not found")),
        (error_lines P self 404 (Some "File not found")),
        (error_body P self 404 (Some "File not found")), true.
      split; [apply refused_reply; simpl; auto|]. split; [congruence|].
      split; [apply error_body_length|].
      intros st. rewrite serve_file_run, Hs. reflexivity.
    - right. exists None, [access_log self 304], (reply_head P self 304), [], false.
      split.
      + rewrite <- (app_nil_r (reply_head P self 304)).
        apply served_reply; simpl; auto with reply.
      + split; [reflexivity|]. split; [simpl; lia|].
        intros st. rewrite serve_file_run, Hs, Ho, Hn. reflexivity.
    - right. exists (Some (content f)), [access_log self 200], (file_lines P self fspath f),
        [], false.
      split.
      + unfold file_lines. apply served_reply; simpl; auto 10 with reply.
      + split; [reflexivity|]. split; [simpl; lia|].
        intros st. rewrite serve_file_run, Hs, Ho, Hn. reflexivity.
    - right. exists None, (error_logs P self 404 (Some "File not found")),
        (error_lines P self 404 (Some "File not found")),
        (error_body P self 404 (Some "File not found")), true.
      split; [apply refused_reply; simpl; auto|]. split; [congruence|].
      split; [apply error_body_length|].
      intros st. rewrite serve_file_run, Hs, Ho. reflexivity.
    - left. intros st. rewrite serve_file_run, Hs, Ho. reflexivity. }
  unfold send_head.
  destruct (isdir P (translate_path P (path self))); [|apply Hfile].
  destruct (negb (str_endswith (urlsplit_path P (path self)) "/")).
  - right. exists None, [access_log self 301], (redirect_lines P self), [], false.
    split.
    + unfold redirect_lines. apply served_reply; simpl; auto 10 with reply.
    + split; [reflexivity|]. split; [simpl; lia|]. intros st. apply redirect_run.
  - destruct (isfile P _); [apply Hfile|]. destruct (isfile P _); [apply Hfile|].
    right.
    destruct (listing P (translate_path P (path self)) (path self)) as [encoded|] eqn:Hl.
    + exists (Some encoded), [access_log self 200], (listing_lines P self encoded), [], false.
      split.
      * unfold listing_lines. apply served_reply; simpl; auto 10 with reply.
      * split; [reflexivity|]. split; [simpl; lia|].
        intros st. rewrite list_directory_run, Hl. reflexivity.
    + exists None, (error_logs P self 404 (Some "No permission to list directory")),
        (error_lines P self 404 (Some "No permission to list directory")),
        (error_body P self 404 (Some "No permission to list directory")), true.
      split; [apply refused_reply; simpl; auto|]. split; [congruence|].
      split; [apply error_body_length|].
      intros st. rewrite list_directory_run, Hl. reflexivity.
Qed.

Lemma copyfile_run bytes st : copyfile bytes st = (Ok tt, writing (chunk bytes) st).
Proof.
  unfold copyfile, chunk. destruct (String.eqb bytes EmptyString).
  - rewrite writing_nil. reflexivity.
  - reflexivity.
Qed.

(** A request that [parse_request] refused is answered by [send_error]. *)
Lemma rejected_reply P self code message st :
  handle_one_request P Handler (Rejected self code message) st
  = (Ok tt, answered self st (error_logs P self code message)
              (error_lines P self code message) (error_body P self code message) true).
Proof. apply send_error_run. Qed.

(** A parsed request is answered, the handler returning after it has printed
    its log lines and sent one header block, unless [open] raised
    [ValueError], which nothing catches before the serving loop: then nothing
    was printed or sent. *)
Lemma parsed_reply P self :
  (forall st, handle_one_request P Handler (Parsed self) st = (Raise ValueError, st))
  \/ exists logs lines body closing,
       static_reply self logs lines
       /\ (List.length body <= 1)%nat
       /\ forall st, handle_one_request P Handler (Parsed self) st
                     = (Ok tt, answered self st logs lines body closing).
Proof.
  cbn [handle_one_request].
  destruct (String.eqb (command self) "GET"); [|destruct (String.eqb (command self) "HEAD")].
  - destruct (send_head_reply P self) as [E | (f & logs & lines & body & closing & Hs & Hb & Hl & E)].
    + left. intros st. unfold do_GET, bind. rewrite E. reflexivity.
    + right. destruct f as [bytes|].
      * exists logs, lines, (chunk bytes), closing.
        split; [exact Hs|]. split; [apply chunk_length|].
        intros st. unfold do_GET, bind.
        rewrite E, copyfile_run, (Hb ltac:(congruence)), writing_answered. reflexivity.
      * exists logs, lines, body, closing. split; [exact Hs|]. split; [exact Hl|].
        intros st. unfold do_GET, bind. rewrite E. reflexivity.
  - destruct (send_head_reply P self) as [E | (f & logs & lines & body & closing & Hs & Hb & Hl & E)].
    + left. intros st. unfold do_HEAD, bind. rewrite E. reflexivity.
    + right. exists logs, lines, body, closing. split; [exact Hs|]. split; [exact Hl|].
      intros st. unfold do_HEAD, bind. rewrite E. reflexivity.
  - right. do 4 eexists. split; [apply refused_reply; simpl; auto|].
    split; [apply error_body_length|]. intros st. apply send_error_run.
Qed.

(** Every request that reaches a handler method is answered or, for a parsed
    request, ends in the [ValueError] of [open]. *)
Lemma handled_reply P self st (r : request) :
  (r = Parsed self \/ exists code message, r = Rejected self code message) ->
  handle_one_request P Handler r st = (Raise ValueError, st)
  \/ exists logs lines body closing,
       handle_one_request P Handler r st = (Ok tt, answered self st logs lines body closing)
       /\ reply_shape self logs lines
       /\ (List.length body <= 1)%nat.
Proof.
  intros [->|[code [message ->]]].
  - destruct (parsed_reply P self) as [E | (logs & lines & body & closing & Hs & Hl & E)].
    + left. apply E.
    + right. exists logs, lines, body, closing.
      split; [apply E|]. split; [apply static_reply_shape; exact Hs | exact Hl].
  - right. do 4 eexists. split; [apply rejected_reply|].
    split; [apply error_reply_shape | apply error_body_length].
Qed.

(** ** The serving loop *)

Lemma startswith_append (p s : string) : str_startswith (p ++ s) p = true.
Proof.
  unfold str_startswith. induction p as [|c p IH]; simpl.
  - destruct s; reflexivity.
  - destruct (ascii_dec c c); [exact IH | congruence].
Qed.

Lemma contains_append (sub a rest : string) : str_contains sub (a ++ sub ++ rest) = true.
Proof.
  induction a as [|c a IH].
  - cbn [append]. destruct (sub ++ rest) eqn:E; cbn [str_contains];
      rewrite <- E, startswith_append; reflexivity.
  - cbn [append str_contains]. rewrite IH. apply orb_true_r.
Qed.

Lemma log_line_is (self : handler) (color message : string) :
  is_log_line (log_line self color message) = true.
Proof. unfold is_log_line, log_line. apply contains_append. Qed.

Lemma reply_shape_logs (self : handler) (logs lines : list string) :
  reply_shape self logs lines -> Forall (fun l => is_log_line l = true) logs.
Proof.
  intros [code message headers _ _ | code message headers _];
    repeat constructor; apply log_line_is.
Qed.

Lemma answered_stdout self st logs lines body closing :
  stdout (answered self st logs lines body closing) = (stdout st ++ logs)%list.
Proof. unfold answered. destruct (String.eqb _ _); reflexivity. Qed.

Lemma answered_stderr self st logs lines body closing :
  stderr (answered self st logs lines body closing) = stderr st.
Proof. unfold answered. destruct (String.eqb _ _); reflexivity. Qed.

Lemma answered_close self st logs lines body closing :
  close_connection st = true ->
  close_connection (answered self st logs lines body closing) = true.
Proof.
  intros H. unfold answered. destruct (String.eqb _ _); cbn; rewrite H; apply orb_true_r.
Qed.

(** A request is answered, or ends in the [IndexError] of the logger when
    the read timed out, or in the [ValueError] of [open]; the console only
    grows and the connection stays marked for closing. *)
Lemma handle_one_request_effect P r st :
  close_connection st = true ->
  exists o st' logs,
    handle_one_request P Handler r st = (o, st')
    /\ (o = Ok tt \/ o = Raise IndexError \/ o = Raise ValueError)
    /\ stdout st' = (stdout st ++ logs)%list
    /\ Forall (fun l => is_log_line l = true) logs
    /\ stderr st' = stderr st
    /\ close_connection st' = true.
Proof.
  assert (Hreply : forall self r, close_connection st = true ->
    (r = Parsed self \/ exists code message, r = Rejected self code message) ->
    exists o st' logs,
      handle_one_request P Handler r st = (o, st')
      /\ (o = Ok tt \/ o = Raise IndexError \/ o = Raise ValueError)
      /\ stdout st' = (stdout st ++ logs)%list
      /\ Forall (fun l => is_log_line l = true) logs
      /\ stderr st' = stderr st
      /\ close_connection st' = true).
  { intros self r0 Hc Hr.
    destruct (handled_reply P self st r0 Hr) as [E | (logs & lines & body & closing & E & Hs & _)].
    - exists (Raise ValueError), st, []. rewrite app_nil_r. auto 7.
    - exists (Ok tt), (answered self st logs lines body closing), logs.
      rewrite answered_stdout, answered_stderr, answered_close by assumption.
      pose proof (reply_shape_logs _ _ _ Hs). auto 7. }
  intros Hc. destruct r as [|self e|self code message|self].
  - exists (Ok tt), (set_close_connection true st), []. cbn.
    rewrite app_nil_r. auto 7.
  - exists (Raise IndexError), st, []. cbn [handle_one_request]. unfold bind, log_error.
    cbn [cls_log_message Handler]. rewrite log_message_short by (simpl; lia).
    rewrite app_nil_r. auto 7.
  - apply (Hreply self); [exact Hc | right; eauto].
  - apply (Hreply self); [exact Hc | left; reflexivity].
Qed.

Lemma handle_more_closed P rs st :
  close_connection st = true -> handle_more P Handler rs st = (Ok tt, st).
Proof.
  intros Hc. destruct rs as [|r rest]; [reflexivity|].
  cbn [handle_more]. unfold bind, gets. rewrite Hc. reflexivity.
Qed.

(** With the protocol at HTTP/1.0 a connection carries one request. *)
Lemma handle_run P c st :
  handle P Handler c st
  = handle_one_request P Handler (first c) (set_close_connection true st).
Proof.
  unfold handle, bind, modify.
  destruct (handle_one_request_effect P (first c) (set_close_connection true st) eq_refl)
    as (o & st' & logs & E & [->| [->| ->]] & _ & _ & _ & Hc); rewrite E.
  - apply handle_more_closed. exact Hc.
  - reflexivity.
  - reflexivity.
Qed.

Lemma finish_request_effect P c st :
  exists o st' logs,
    finish_request P Handler c st = (o, st')
    /\ (o = Ok tt \/ o = Raise IndexError \/ o = Raise ValueError)
    /\ stdout st' = (stdout st ++ logs)%list
    /\ Forall (fun l => is_log_line l = true) logs.
Proof.
  unfold finish_request, bind, modify. rewrite handle_run.
  destruct (handle_one_request_effect P (first c)
              (set_close_connection true (set_wfile [] (set_headers_buffer None st))) eq_refl)
    as (o & st' & logs & E & Ho & Hout & Hlogs & _).
  exists o, st', logs. auto.
Qed.

(** One turn of the serving loop: the connection is accepted, handled and
    shut down on the calling thread, and the loop goes on. *)
Lemma handle_request_noblock_effect P t c srv :
  exists st' logs,
    _handle_request_noblock P Handler t c srv
    = (Ok tt, mkServer st' (socket_open srv)
                (schedule srv ++ in_turn t (List.length (sent srv)))
                (sent srv ++ [wfile st']))
    /\ stdout st' = (stdout (console srv) ++ logs)%list
    /\ Forall (fun l => is_log_line l = true) logs.
Proof.
  unfold _handle_request_noblock, process_request, record_action, in_turn.
  cbn [console socket_open schedule sent].
  destruct (finish_request_effect P c (console srv)) as (o & st' & logs & E & Ho & Hout & Hlogs).
  rewrite E. destruct Ho as [-> | [-> | ->]].
  - exists st', logs. cbn [console socket_open schedule sent].
    rewrite <- !app_assoc. auto.
  - exists (snd (handle_error P c IndexError st')), logs.
    cbn [console socket_open schedule sent]. rewrite <- !app_assoc.
    destruct st' as [o' e' b' w' c']. cbn in Hout. split; [reflexivity | split; assumption].
  - exists (snd (handle_error P c ValueError st')), logs.
    cbn [console socket_open schedule sent]. rewrite <- !app_assoc.
    destruct st' as [o' e' b' w' c']. cbn in Hout. split; [reflexivity | split; assumption].
Qed.

(** The loop over connections only: it is still selecting at the end, having
    served them in turn. *)
Lemma serve_forever_connects P t inputs srv :
  forallb is_connect inputs = true ->
  exists st' logs more,
    serve_forever P Handler t inputs srv
    = (Selecting, mkServer st' (socket_open srv)
                    (schedule srv ++ sequential t (List.length (sent srv)) (List.length inputs))
                    (sent srv ++ more))
    /\ List.length more = List.length inputs
    /\ stdout st' = (stdout (console srv) ++ logs)%list
    /\ Forall (fun l => is_log_line l = true) logs.
Proof.
  revert srv. induction inputs as [|i rest IH]; intros srv Hall.
  - exists (console srv), [], []. cbn. rewrite !app_nil_r. destruct srv; auto.
  - cbn in Hall. apply andb_true_iff in Hall as [Hi Hrest]. destruct i as [c|]; [|discriminate].
    cbn [serve_forever].
    destruct (handle_request_noblock_effect P t c srv) as (st1 & logs1 & E & Hout1 & Hlogs1).
    rewrite E.
    match goal with |- context [serve_forever P Handler t rest ?s] =>
      destruct (IH s Hrest) as (st2 & logs2 & more & E2 & Hlen & Hout2 & Hlogs2) end.
    rewrite E2.
    cbn [console socket_open schedule sent] in *.
    exists st2, (logs1 ++ logs2)%list, (wfile st1 :: more).
    rewrite Hout2, Hout1, <- !app_assoc. cbn [app List.length].
    rewrite length_app. cbn [List.length]. rewrite Hlen.
    split; [|repeat split; try reflexivity; apply Forall_app; split; assumption].
    f_equal. f_equal. f_equal.
    unfold sequential. cbn [seq flat_map]. rewrite Nat.add_1_r. reflexivity.
Qed.

Lemma serve_forever_app P t pre rest srv :
  forallb is_connect pre = true ->
  serve_forever P Handler t (pre ++ rest) srv
  = serve_forever P Handler t rest (snd (serve_forever P Handler t pre srv)).
Proof.
  revert srv. induction pre as [|i pre IH]; intros srv Hall; [reflexivity|].
  cbn in Hall. apply andb_true_iff in Hall as [Hi Hrest]. destruct i as [c|]; [|discriminate].
  cbn [serve_forever app].
  destruct (handle_request_noblock_effect P t c srv) as (st1 & logs1 & E & _). rewrite E.
  apply IH. exact Hrest.
Qed.

Lemma join_cons (l : string) (ls : list string) : join (l :: ls) = l ++ join ls.
Proof.
  unfold join. destruct ls as [|l' ls]; simpl; [now rewrite append_empty_r | reflexivity].
Qed.

Lemma append_assoc (a b c : string) : (a ++ b) ++ c = a ++ b ++ c.
Proof. induction a as [|x a IH]; simpl; [reflexivity | now rewrite IH]. Qed.

Lemma join_app (a b : list string) : join (a ++ b) = join a ++ join b.
Proof.
  induction a as [|l a IH]; cbn [app]; [reflexivity|].
  rewrite !join_cons, IH, append_assoc. reflexivity.
Qed.

Lemma contains_suffix (sub a : string) : str_contains sub (a ++ sub) = true.
Proof.
  pose proof (contains_append sub a EmptyString) as H.
  rewrite append_empty_r in H. exact H.
Qed.

Lemma header_block_carries (lines body : list string) :
  carries_no_cache_headers (header_block lines :: body) = true.
Proof.
  unfold carries_no_cache_headers, header_block. rewrite (join_app lines).
  apply contains_suffix.
Qed.


(** ** Header policy *)

(** C1, as the code has it.  Every header block the server sends ends with
    the three cache-disabling headers, with their literal values, after the
    lines the handler has set and before the blank line that closes the
    block; a reply sent while [request_version] is [HTTP/0.9] has no header
    block and is the bare body.  The five parts: the literal lines; what
    [end_headers] does to any buffer; every reply to a parsed or rejected
    request whose handler holds another version than [HTTP/0.9], whatever its
    status code and content type; the replies sent under [HTTP/0.9]; and what
    a connection receives, which is nothing or a response that starts with a
    block holding the three headers and the blank line. *)
Theorem no_cache_headers_on_every_response :
  no_cache_headers
  = [ "Cache-Control: no-store, no-cache, must-revalidate, max-age=0" ++ CRLF;
      "Pragma: no-cache" ++ CRLF;
      "Expires: 0" ++ CRLF ]
  /\ (forall self st,
        request_version self <> "HTTP/0.9" ->
        NoCacheHTTPRequestHandler.end_headers self st
        = (Ok tt,
           set_headers_buffer (Some [])
             (set_wfile (wfile st ++ [join (buffered st ++ no_cache_headers ++ [CRLF])%list])
                st)))
  /\ (forall P self r st,
        request_version self <> "HTTP/0.9" ->
        r = Parsed self \/ (exists code message, r = Rejected self code message) ->
        handle_one_request P Handler r st = (Raise ValueError, st)
        \/ exists code message headers body st',
             handle_one_request P Handler r st = (Ok tt, st')
             /\ Forall is_header_line headers
             /\ wfile st'
                = (wfile st
                   ++ join (buffered st ++ (status_line code message :: headers)
                            ++ no_cache_headers ++ [CRLF]) :: body)%list)
  /\ (forall P self r st,
        request_version self = "HTTP/0.9" ->
        r = Parsed self \/ (exists code message, r = Rejected self code message) ->
        handle_one_request P Handler r st = (Raise ValueError, st)
        \/ exists body st',
             handle_one_request P Handler r st = (Ok tt, st')
             /\ (List.length body <= 1)%nat
             /\ wfile st' = (wfile st ++ body)%list)
  /\ (forall P c self st,
        request_version self <> "HTTP/0.9" ->
        first c = Parsed self \/ (exists code message, first c = Rejected self code message) ->
        wfile (snd (finish_request P Handler c st)) = []
        \/ carries_no_cache_headers (wfile (snd (finish_request P Handler c st))) = true).
Proof.
  split; [reflexivity|]. split; [|split; [|split]].
  - intros self st V. apply String.eqb_neq in V.
    rewrite end_headers_run. unfold flushing, header_block. rewrite V. reflexivity.
  - intros P self r st V Hr. apply String.eqb_neq in V.
    destruct (handled_reply P self st r Hr)
      as [E | (logs & lines & body & closing & E & Hs & _)]; [left; exact E|].
    right.
    destruct Hs as [code message headers Hc Hh | code message headers Hh];
      exists code, message, headers, body; eexists;
      (split; [exact E|]); (split; [assumption|]);
      unfold answered, header_block; rewrite V; cbn [wfile];
      rewrite <- !app_assoc; reflexivity.
  - intros P self r st V Hr. apply String.eqb_eq in V.
    destruct (handled_reply P self st r Hr)
      as [E | (logs & lines & body & closing & E & _ & Hl)]; [left; exact E|].
    right. exists body. eexists. split; [exact E|]. split; [exact Hl|].
    unfold answered. rewrite V. reflexivity.
  - intros P c self st V Hr. apply String.eqb_neq in V.
    unfold finish_request, bind, modify. rewrite handle_run.
    destruct (handled_reply P self
                (set_close_connection true (set_wfile [] (set_headers_buffer None st)))
                (first c) Hr)
      as [E | (logs & lines & body & closing & E & _ & _)]; rewrite E; cbn [snd].
    + left. reflexivity.
    + right. unfold answered. rewrite V.
      cbn [wfile set_close_connection set_wfile set_headers_buffer app].
      apply header_block_carries.
Qed.

Lemma no_cache_headers_witness :
  request_version (sample_handler "GET" "/nope.js" "HTTP/1.1" None) <> "HTTP/0.9"
  /\ (first (one get_missing) = Parsed (sample_handler "GET" "/nope.js" "HTTP/1.1" None)
      \/ (exists code message,
            first (one get_missing)
            = Rejected (sample_handler "GET" "/nope.js" "HTTP/1.1" None) code message))
  /\ (wfile (snd (finish_request sample_platform Handler (one get_missing) initial_state)) = []
      \/ carries_no_cache_headers
           (wfile (snd (finish_request sample_platform Handler (one get_missing)
                          initial_state))) = true).
Proof.
  assert (V : request_version (sample_handler "GET" "/nope.js" "HTTP/1.1" None) <> "HTTP/0.9")
    by discriminate.
  assert (H : first (one get_missing) = Parsed (sample_handler "GET" "/nope.js" "HTTP/1.1" None)
              \/ (exists code message,
                    first (one get_missing)
                    = Rejected (sample_handler "GET" "/nope.js" "HTTP/1.1" None) code message))
    by (left; reflexivity).
  split; [exact V|]. split; [exact H|].
  exact (proj2 (proj2 (proj2 (proj2 no_cache_headers_on_every_response))) sample_platform
           (one get_missing) _ initial_state V H).
Defined.

(** C1, as the specification has it, fails: the request line
    [GET /app.js FOO/1.1] is answered 400 while the handler's version is still
    [HTTP/0.9], so the response is the bare error page, without a header
    block and without the three headers. *)
Lemma bad_version_reply_has_no_headers :
  ~ every_response_carries_no_cache_headers sample_platform [Connect (one bad_version)].
Proof.
  intros H.
  assert (E : carries_no_cache_headers
                (hd [] (sent (httpd (dev_server sample_platform [Connect (one bad_version)]))))
              = false)
    by (vm_compute; reflexivity).
  rewrite H in E.
  - discriminate E.
  - vm_compute. left. reflexivity.
  - vm_compute. discriminate.
Qed.

Example run_bad_version :
  sent (httpd (dev_server sample_platform [Connect (one bad_version)]))
  = [[ "<p>Error code: 400</p><p>Message: Bad request version ('FOO/1.1').</p>" ]].
Proof. vm_compute. reflexivity. Qed.

(** ** Logging *)

(** C2. The colour of a printed log line is read off the first character of
    the second format argument: green for 2, blue for 3, yellow for 4, red
    for 5, the default code for anything else, the empty string included.
    The call prints one line in that colour whenever the formatting of the
    message succeeds. *)
Theorem log_color_by_status_class :
  (forall self format a s rest st,
     NoCacheHTTPRequestHandler.log_message self format (a :: PyStr s :: rest) st
     = match str_mod format (a :: PyStr s :: rest) with
       | Ok message =>
           (Ok tt,
            set_stdout
              (stdout st
               ++ [address_string self ++ " - - [" ++ log_date_time_string self ++ "] "
                   ++ status_class_color s ++ message ++ ESC ++ "[0m"]) st)
       | Raise e => (Raise e, st)
       end)
  /\ (forall s,
        status_class_color s
        = if str_startswith s "2" then ESC ++ "[92m"
          else if str_startswith s "3" then ESC ++ "[94m"
          else if str_startswith s "4" then ESC ++ "[93m"
          else if str_startswith s "5" then ESC ++ "[91m"
          else ESC ++ "[0m")
  /\ status_class_color "200" = green
  /\ status_class_color "304" = blue
  /\ status_class_color "404" = yellow
  /\ status_class_color "501" = red
  /\ status_class_color "100" = default_color
  /\ status_class_color "-" = default_color
  /\ status_class_color EmptyString = default_color.
Proof.
  split.
  - intros self format a s rest st.
    rewrite log_message_run with (s := s) by reflexivity. reflexivity.
  - split; [|repeat split; reflexivity].
    intros [|c rest]; [reflexivity|].
    rewrite !startswith_digit. reflexivity.
Qed.

(** C4, as the code has it.  Every log line the handler prints is the client
    address and the timestamp in the terminal's current colour, then the
    colour of the status class, the formatted message and the reset code,
    which ends the line: the colour wraps the message, not the address and
    the timestamp before it. *)
Theorem log_line_shape (self : handler) (format : string) (args : list pyval)
    (st st' : state) :
  NoCacheHTTPRequestHandler.log_message self format args st = (Ok tt, st') ->
  exists s message,
    nth_error args 1 = Some (PyStr s)
    /\ str_mod format args = Ok message
    /\ st' = set_stdout
               (stdout st
                ++ [address_string self ++ " - - [" ++ log_date_time_string self ++ "] "
                    ++ status_class_color s ++ message ++ reset]) st
    /\ In (status_class_color s) [green; blue; yellow; red; default_color].
Proof.
  intros E. destruct (nth_error args 1) as [v|] eqn:Hv.
  - destruct v as [s|n|o r].
    + rewrite log_message_run with (s := s) in E by exact Hv.
      destruct (str_mod format args) as [message|e]; [|discriminate].
      exists s, message. injection E as <-.
      split; [reflexivity|]. split; [reflexivity|]. split.
      * reflexivity.
      * destruct s as [|c rest]; [simpl; tauto|]. unfold status_class_color.
        destruct (Ascii.eqb c "2"); [simpl; tauto|].
        destruct (Ascii.eqb c "3"); [simpl; tauto|].
        destruct (Ascii.eqb c "4"); [simpl; tauto|].
        destruct (Ascii.eqb c "5"); simpl; tauto.
    + rewrite log_message_not_str with (v := PyInt n) in E by (assumption || discriminate).
      discriminate.
    + rewrite log_message_not_str with (v := PyObject o r) in E
        by (assumption || discriminate).
      discriminate.
  - rewrite log_message_short in E; [discriminate|].
    apply nth_error_None in Hv. lia.
Qed.

Lemma log_line_shape_witness :
  NoCacheHTTPRequestHandler.log_message app_handler access_format access_args initial_state
  = (Ok tt,
     set_stdout [log_line app_handler green (DQUOTE ++ "GET /app.js HTTP/1.1" ++ DQUOTE ++ " 200 -")]
       initial_state)
  /\ exists s message,
       nth_error access_args 1 = Some (PyStr s)
       /\ str_mod access_format access_args = Ok message
       /\ set_stdout [log_line app_handler green
                        (DQUOTE ++ "GET /app.js HTTP/1.1" ++ DQUOTE ++ " 200 -")] initial_state
          = set_stdout
              (stdout initial_state
               ++ [address_string app_handler ++ " - - ["
                   ++ log_date_time_string app_handler ++ "] "
                   ++ status_class_color s ++ message ++ reset]) initial_state
       /\ In (status_class_color s) [green; blue; yellow; red; default_color].
Proof.
  assert (E : NoCacheHTTPRequestHandler.log_message app_handler access_format access_args
                initial_state
              = (Ok tt,
                 set_stdout [log_line app_handler green
                               (DQUOTE ++ "GET /app.js HTTP/1.1" ++ DQUOTE ++ " 200 -")]
                   initial_state)) by reflexivity.
  split; [exact E|].
  exact (log_line_shape app_handler access_format access_args initial_state _ E).
Defined.

(** C4, as the specification has it, fails: the line printed for a 200 reply
    starts with the client address, not with the colour code. *)
Lemma whole_line_not_colored :
  ~ colors_whole_line app_handler access_format access_args initial_state.
Proof.
  intros H. specialize (H "200" _ eq_refl eq_refl).
  vm_compute in H. discriminate H.
Qed.

(** C10, as the code has it.  With fewer than two format arguments
    [log_message] raises [IndexError] and prints nothing.  With a string as
    second argument it does what the formatting of the message does: it
    prints one line when [format % args] succeeds and raises, printing
    nothing, the exception [format % args] raises otherwise. *)
Theorem log_message_raises :
  (forall self format args st,
     (List.length args < 2)%nat ->
     NoCacheHTTPRequestHandler.log_message self format args st = (Raise IndexError, st))
  /\ (forall self format args s st,
        nth_error args 1 = Some (PyStr s) ->
        match str_mod format args with
        | Ok message =>
            NoCacheHTTPRequestHandler.log_message self format args st
            = (Ok tt, set_stdout (stdout st ++ [log_line self (status_class_color s) message]) st)
        | Raise e =>
            NoCacheHTTPRequestHandler.log_message self format args st = (Raise e, st)
        end).
Proof.
  split.
  - intros. apply log_message_short. assumption.
  - intros self format args s st Hs. rewrite log_message_run with (s := s) by exact Hs.
    destruct (str_mod format args); reflexivity.
Qed.

Lemma log_message_raises_witness :
  ((List.length [PyObject "timed out" "TimeoutError('timed out')"] < 2)%nat
   /\ NoCacheHTTPRequestHandler.log_message app_handler "Request timed out: %r"
        [PyObject "timed out" "TimeoutError('timed out')"] initial_state
      = (Raise IndexError, initial_state))
  /\ (nth_error access_args 1 = Some (PyStr "200")
      /\ NoCacheHTTPRequestHandler.log_message app_handler access_format access_args
           initial_state
         = (Ok tt,
            set_stdout
              (stdout initial_state
               ++ [log_line app_handler (status_class_color "200")
                     (DQUOTE ++ "GET /app.js HTTP/1.1" ++ DQUOTE ++ " 200 -")])
              initial_state)).
Proof.
  split.
  - assert (H : (List.length [PyObject "timed out" "TimeoutError('timed out')"] < 2)%nat)
      by (simpl; lia).
    split; [exact H|].
    exact (proj1 log_message_raises app_handler _ _ initial_state H).
  - split; [reflexivity|].
    exact (proj2 log_message_raises app_handler access_format access_args "200"
             initial_state eq_refl).
Defined.

(** C10, as the specification has it, fails: two arguments, the second a
    string, and [log_message] raises the [TypeError] of the formatting, the
    format taking one argument only. *)
Lemma log_message_can_raise :
  ~ never_raises app_handler "%s" [PyStr "GET /app.js HTTP/1.1"; PyStr "200"] initial_state.
Proof.
  intros H. destruct H as [st' E].
  - simpl. lia.
  - exists "200". reflexivity.
  - vm_compute in E. discriminate E.
Qed.




(** ** Conditional requests *)





(** ** The process: start, serving loop, stop *)

Lemma banner_printed (P : platform) :
  (print (ESC ++ "[1;32mStarting server at http://localhost:" ++ str_int PORT
          ++ ESC ++ "[0m") ;;
   print (ESC ++ "[1;33mPress Ctrl+C to stop the server" ++ ESC ++ "[0m") ;;
   print (ESC ++ "[1;34mServing files from: " ++ getcwd P ++ ESC ++ "[0m") ;;
   print (ESC ++ "[1;36mNo-cache headers enabled - browser will request fresh files on each reload"
          ++ ESC ++ "[0m")) initial_state
  = (Ok tt, mkState (banner P) [] None [] true).
Proof. reflexivity. Qed.

Lemma inputs_split (inputs : list input) :
  forallb is_connect (until_interrupt inputs) = true
  /\ (inputs = until_interrupt inputs
      \/ exists post, inputs = (until_interrupt inputs ++ SIGINT :: post)%list).
Proof.
  induction inputs as [|[c|] rest [IH1 IH2]].
  - split; [reflexivity | left; reflexivity].
  - cbn. split; [exact IH1|]. destruct IH2 as [E | [post E]].
    + left. f_equal. exact E.
    + right. exists post. f_equal. exact E.
  - cbn. split; [reflexivity|]. right. exists rest. reflexivity.
Qed.

(** A process that has received connections only is still serving. *)
Lemma dev_server_connects (P : platform) (pre : list input) :
  bind_socket P EmptyString PORT = Ok tt ->
  forallb is_connect pre = true ->
  exists st logs more,
    dev_server P pre
    = mkProcess (mkServer st true (sequential MainThread 0 (List.length pre)) more) Running
    /\ List.length more = List.length pre
    /\ stdout st = (banner P ++ logs)%list
    /\ Forall (fun l => is_log_line l = true) logs
    /\ serve_forever P Handler MainThread pre
         (mkServer (mkState (banner P) [] None [] true) true [] [])
       = (Selecting, mkServer st true (sequential MainThread 0 (List.length pre)) more).
Proof.
  intros Hbind Hall. unfold dev_server. rewrite banner_printed, Hbind.
  destruct (serve_forever_connects P MainThread pre
              (mkServer (mkState (banner P) [] None [] true) true [] []) Hall)
    as (st & logs & more & E & Hlen & Hout & Hlogs).
  cbn [console socket_open schedule sent app List.length stdout] in E, Hout.
  rewrite E. exists st, logs, more. auto 6.
Qed.

Lemma dev_server_interrupted (P : platform) (pre post : list input) :
  bind_socket P EmptyString PORT = Ok tt ->
  forallb is_connect pre = true ->
  dev_server P (pre ++ SIGINT :: post)
  = mkProcess
      (mkServer
         (set_stdout (out (dev_server P pre) ++ [server_stopped])
            (console (httpd (dev_server P pre))))
         false
         (schedule (httpd (dev_server P pre)))
         (sent (httpd (dev_server P pre))))
      (Exited 0).
Proof.
  intros Hbind Hall.
  destruct (dev_server_connects P pre Hbind Hall) as (st & logs & more & E & _ & _ & _ & Es).
  rewrite E. unfold dev_server. rewrite banner_printed, Hbind.
  rewrite serve_forever_app by exact Hall. rewrite Es. cbn [snd serve_forever].
  destruct st as [o e b w c]. reflexivity.
Qed.

(** C6. An interrupt that arrives while the server is serving ends the
    process with status 0: the listening socket is closed, nothing that
    arrives later is accepted, and the console gains one line, the bold red
    "Server stopped" message, which no line printed before it equals. *)
Theorem interrupt_stops_server (P : platform) (pre post : list input) :
  bind_socket P EmptyString PORT = Ok tt ->
  forallb is_connect pre = true ->
  exit_status (dev_server P pre) = Running
  /\ socket_open (httpd (dev_server P pre)) = true
  /\ exit_status (dev_server P (pre ++ SIGINT :: post)) = Exited 0
  /\ socket_open (httpd (dev_server P (pre ++ SIGINT :: post))) = false
  /\ out (dev_server P (pre ++ SIGINT :: post))
     = (out (dev_server P pre)
        ++ [(LF ++ ESC ++ "[1;31mServer stopped" ++ ESC ++ "[0m")%string])%list
  /\ ~ In (LF ++ ESC ++ "[1;31mServer stopped" ++ ESC ++ "[0m") (out (dev_server P pre))
  /\ err (dev_server P (pre ++ SIGINT :: post)) = err (dev_server P pre)
  /\ sent (httpd (dev_server P (pre ++ SIGINT :: post))) = sent (httpd (dev_server P pre))
  /\ schedule (httpd (dev_server P (pre ++ SIGINT :: post)))
     = schedule (httpd (dev_server P pre)).
Proof.
  intros Hbind Hall. rewrite dev_server_interrupted by assumption.
  destruct (dev_server_connects P pre Hbind Hall)
    as (st & logs & more & E & _ & Hout & Hlogs & _).
  rewrite E. unfold out, err. cbn [httpd console socket_open schedule sent exit_status].
  destruct st as [o e b w c]. cbn [stdout stderr set_stdout] in *.
  repeat (split; [reflexivity|]). split; [|repeat split; reflexivity].
  rewrite Hout. intros Hin. apply in_app_or in Hin as [Hin | Hin].
  - unfold banner in Hin. cbn [In] in Hin.
    destruct Hin as [H | [H | [H | [H | []]]]]; discriminate H.
  - rewrite Forall_forall in Hlogs. apply Hlogs in Hin. discriminate Hin.
Qed.

Lemma interrupt_stops_server_witness :
  bind_socket sample_platform EmptyString PORT = Ok tt
  /\ forallb is_connect [Connect (one get_app); Connect (one get_missing)] = true
  /\ exit_status (dev_server sample_platform
                    ([Connect (one get_app); Connect (one get_missing)]
                     ++ SIGINT :: [Connect (one get_app)])) = Exited 0
  /\ out (dev_server sample_platform
            ([Connect (one get_app); Connect (one get_missing)]
             ++ SIGINT :: [Connect (one get_app)]))
     = (out (dev_server sample_platform [Connect (one get_app); Connect (one get_missing)])
        ++ [(LF ++ ESC ++ "[1;31mServer stopped" ++ ESC ++ "[0m")%string])%list.
Proof.
  split; [reflexivity|]. split; [reflexivity|].
  pose proof (interrupt_stops_server sample_platform
                [Connect (one get_app); Connect (one get_missing)] [Connect (one get_app)]
                eq_refl eq_refl) as H.
  split; [exact (proj1 (proj2 (proj2 H))) | exact (proj1 (proj2 (proj2 (proj2 (proj2 H)))))].
Defined.

Lemma dev_server_bind_failed (P : platform) (inputs : list input) (e : exn) :
  bind_socket P EmptyString PORT = Raise e ->
  dev_server P inputs
  = mkProcess (mkServer (mkState (banner P) [format_exc P e] None [] true) false [] [])
      (Exited 1).
Proof.
  intros Hbind. unfold dev_server. rewrite banner_printed, Hbind. reflexivity.
Qed.

(** C7. When the socket cannot be bound the exception is caught by nobody:
    the banner has been printed, the traceback goes to standard error, the
    process exits with status 1 and no connection is ever accepted. *)
Theorem bind_failure_is_fatal (P : platform) (inputs : list input) (e : exn) :
  bind_socket P EmptyString PORT = Raise e ->
  dev_server P inputs
  = mkProcess (mkServer (mkState (banner P) [format_exc P e] None [] true) false [] [])
      (Exited 1).
Proof. exact (dev_server_bind_failed P inputs e). Qed.

Lemma bind_failure_is_fatal_witness :
  bind_socket busy_platform EmptyString PORT = Raise OSError
  /\ dev_server busy_platform [Connect (one get_app); SIGINT]
     = mkProcess
         (mkServer (mkState (banner busy_platform) [format_exc busy_platform OSError] None []
                      true) false [] [])
         (Exited 1).
Proof.
  split; [reflexivity|].
  exact (bind_failure_is_fatal busy_platform [Connect (one get_app); SIGINT] OSError eq_refl).
Defined.

Lemma dev_server_bind_cases (P : platform) (inputs : list input) :
  exists st more,
    dev_server P inputs
    = mkProcess (mkServer st (socket_open (httpd (dev_server P inputs)))
                   (sequential MainThread 0 (List.length more)) more)
        (exit_status (dev_server P inputs))
    /\ (exists rest, stdout st = (banner P ++ rest)%list)
    /\ List.length more
       = match bind_socket P EmptyString PORT with
         | Ok _ => List.length (until_interrupt inputs)
         | Raise _ => 0%nat
         end.
Proof.
  destruct (bind_socket P EmptyString PORT) as [[]|e] eqn:Hbind.
  - destruct (inputs_split inputs) as [Hall [E | [post E]]].
    + destruct (dev_server_connects P _ Hbind Hall) as (st & logs & more & Ed & Hlen & Hout & _ & _).
      rewrite <- E in Ed. rewrite Ed. cbn [httpd socket_open exit_status].
      exists st, more. rewrite Hlen, <- E. eauto.
    + destruct (dev_server_connects P _ Hbind Hall) as (st & logs & more & Ed & Hlen & Hout & _ & _).
      pose proof (dev_server_interrupted P _ post Hbind Hall) as Ei.
      rewrite <- E, Ed in Ei. rewrite Ei. cbn [httpd socket_open exit_status].
      unfold out. cbn [httpd console sent schedule].
      eexists _, more. rewrite Hlen. split; [reflexivity|]. split; [|reflexivity].
      exists (logs ++ [server_stopped])%list. destruct st as [o e b w c].
      cbn [stdout set_stdout] in *. rewrite Hout. rewrite <- app_assoc. reflexivity.
  - rewrite (dev_server_bind_failed P inputs e Hbind).
    exists (mkState (banner P) [format_exc P e] None [] true), [].
    cbn [httpd socket_open exit_status List.length stdout].
    split; [reflexivity|]. split; [|reflexivity]. exists []. rewrite app_nil_r. reflexivity.
Qed.

(** C8. The first four lines on standard output are the banner, in this
    order: the URL in bold green, the Ctrl+C instruction in bold yellow, the
    working directory in bold blue, the no-cache note in bold cyan.  They are
    there before any request is served, whatever arrives later, and they are
    all there is as long as nothing has arrived. *)
Theorem startup_banner :
  (forall P,
     banner P
     = [ ESC ++ "[1;32m" ++ "Starting server at http://localhost:8000" ++ ESC ++ "[0m";
         ESC ++ "[1;33m" ++ "Press Ctrl+C to stop the server" ++ ESC ++ "[0m";
         ESC ++ "[1;34m" ++ "Serving files from: " ++ getcwd P ++ ESC ++ "[0m";
         ESC ++ "[1;36m"
           ++ "No-cache headers enabled - browser will request fresh files on each reload"
           ++ ESC ++ "[0m" ])
  /\ (forall P, out (dev_server P []) = banner P)
  /\ (forall P inputs, exists rest, out (dev_server P inputs) = (banner P ++ rest)%list)
  /\ (forall P inputs, firstn 4 (out (dev_server P inputs)) = banner P).
Proof.
  assert (Hprefix : forall P inputs,
            exists rest, out (dev_server P inputs) = (banner P ++ rest)%list).
  { intros P inputs.
    destruct (dev_server_bind_cases P inputs) as (st & more & E & Hout & _).
    rewrite E. exact Hout. }
  split; [reflexivity|]. split; [|split; [exact Hprefix|]].
  - intros P. unfold dev_server. rewrite banner_printed.
    destruct (bind_socket P EmptyString PORT); reflexivity.
  - intros P inputs. destruct (Hprefix P inputs) as [rest E]. rewrite E. reflexivity.
Qed.

(** C9, as the code has it.  The server is a plain [TCPServer]: every
    connection is accepted, handled to its end and shut down on the main
    thread before the next one is accepted, in the order of arrival. *)
Theorem connections_handled_in_turn (P : platform) (inputs : list input) :
  schedule (httpd (dev_server P inputs))
  = flat_map (fun c => [Accept c MainThread; Begin c MainThread; Shutdown c MainThread])
      (seq 0 (List.length (sent (httpd (dev_server P inputs)))))
  /\ List.length (sent (httpd (dev_server P inputs)))
     = match bind_socket P EmptyString PORT with
       | Ok _ => List.length (until_interrupt inputs)
       | Raise _ => 0%nat
       end.
Proof.
  destruct (dev_server_bind_cases P inputs) as (st & more & E & _ & Hlen).
  rewrite E. cbn [httpd schedule sent]. split; [reflexivity | exact Hlen].
Qed.

(** C9, as the specification has it, fails: two connections, both handled on
    the main thread. *)
Lemma two_connections_one_thread :
  ~ own_thread_per_connection
      (schedule (httpd (dev_server sample_platform
                          [Connect (one get_app); Connect (one get_missing)]))).
Proof.
  intros H.
  apply (H 0%nat 1%nat MainThread MainThread); [| |discriminate|reflexivity];
    vm_compute; tauto.
Qed.

(** ** Runs of the model *)

Example run_get_app :
  sent (httpd (dev_server sample_platform [Connect (one get_app)]))
  = [[ "HTTP/1.0 200 OK" ++ CRLF
       ++ "Server: SimpleHTTP/0.6 Python/3.11.2" ++ CRLF
       ++ "Date: Wed, 04 Nov 2026 09:00:00 GMT" ++ CRLF
       ++ "Content-type: text/javascript" ++ CRLF
       ++ "Content-Length: 15" ++ CRLF
       ++ "Last-Modified: Tue, 14 Nov 2023 22:13:20 GMT" ++ CRLF
       ++ "Cache-Control: no-store, no-cache, must-revalidate, max-age=0" ++ CRLF
       ++ "Pragma: no-cache" ++ CRLF
       ++ "Expires: 0" ++ CRLF
       ++ CRLF;
       "console.log(1);" ]].
Proof. vm_compute. reflexivity. Qed.

Example run_http09 :
  wfile (snd (handle_one_request sample_platform Handler
                (Parsed (sample_handler "GET" "/app.js" "HTTP/0.9" None)) initial_state))
  = ["console.log(1);"].
Proof. vm_compute. reflexivity. Qed.

Example run_timeout :
  dev_server sample_platform
    [Connect (one (TimedOut app_handler (PyObject "timed out" "TimeoutError('timed out')")))]
  = mkProcess
      (mkServer
         (mkState (banner sample_platform)
            [ "----------------------------------------";
              "Exception occurred during processing of request from ('127.0.0.1', 50000)";
              "Traceback (most recent call last): ...";
              "----------------------------------------" ]
            None [] true)
         true
         [Accept 0 MainThread; Begin 0 MainThread; Shutdown 0 MainThread]
         [[]])
      Running.
Proof. vm_compute. reflexivity. Qed.

Example run_redirect :
  sent (httpd (dev_server sample_platform [Connect (one get_assets)]))
  = [[ "HTTP/1.0 301 Moved Permanently" ++ CRLF
       ++ "Server: SimpleHTTP/0.6 Python/3.11.2" ++ CRLF
       ++ "Date: Wed, 04 Nov 2026 09:00:00 GMT" ++ CRLF
       ++ "Location: /assets/" ++ CRLF
       ++ "Content-Length: 0" ++ CRLF
       ++ "Cache-Control: no-store, no-cache, must-revalidate, max-age=0" ++ CRLF
       ++ "Pragma: no-cache" ++ CRLF
       ++ "Expires: 0" ++ CRLF
       ++ CRLF ]].
Proof. vm_compute. reflexivity. Qed.

Example run_post :
  stdout (snd (handle_one_request sample_platform Handler post_app initial_state))
  = [ "127.0.0.1 - - [04/Nov/2026 10:00:00] " ++ default_color
      ++ "code 501, message Unsupported method ('POST')" ++ reset;
      "127.0.0.1 - - [04/Nov/2026 10:00:00] " ++ red
      ++ DQUOTE ++ "POST /app.js HTTP/1.1" ++ DQUOTE ++ " 501 -" ++ reset ].
Proof. vm_compute. reflexivity. Qed.

(** The class the script derives from logs the same request on standard
    error, without colour, and sends no cache-disabling header. *)
Example run_plain_handler :
  handle_one_request sample_platform PlainHandler get_app initial_state
  = (Ok tt,
     mkState []
       [ "127.0.0.1 - - [04/Nov/2026 10:00:00] "
         ++ DQUOTE ++ "GET /app.js HTTP/1.1" ++ DQUOTE ++ " 200 -" ++ LF ]
       (Some [])
       [ "HTTP/1.0 200 OK" ++ CRLF
         ++ "Server: SimpleHTTP/0.6 Python/3.11.2" ++ CRLF
         ++ "Date: Wed, 04 Nov 2026 09:00:00 GMT" ++ CRLF
         ++ "Content-type: text/javascript" ++ CRLF
         ++ "Content-Length: 15" ++ CRLF
         ++ "Last-Modified: Tue, 14 Nov 2023 22:13:20 GMT" ++ CRLF
         ++ CRLF;
         "console.log(1);" ]
       true).
Proof. vm_compute. reflexivity. Qed.

Example run_dashes :
  String.length "----------------------------------------" = 40%nat.
Proof. reflexivity. Qed.

Example run_format :
  str_mod "code %d, message %s" [PyInt 404; PyStr "File not found"]
  = Ok "code 404, message File not found"
  /\ str_mod "%s" [PyStr "a"; PyStr "b"] = Raise TypeError
  /\ str_mod "%d" [PyStr "a"] = Raise TypeError
  /\ str_mod "%s %s" [PyStr "a"] = Raise TypeError
  /\ str_mod "100%" [] = Raise ValueError
  /\ str_mod "Unsupported method (%r)" [PyStr "POST"] = Ok "Unsupported method ('POST')".
Proof. repeat split; reflexivity. Qed.

(** * Further properties of the script *)

(** ** The logger *)



(** X2. Whatever it is called with, [log_message] touches standard output
    only: it either appends one line, which holds the address separator, and
    returns, or raises and leaves the whole state as it was. *)
Theorem log_message_frame (self : handler) (format : string) (args : list pyval)
    (st : state) :
  (exists line,
     NoCacheHTTPRequestHandler.log_message self format args st
     = (Ok tt, set_stdout (stdout st ++ [line]) st)
     /\ is_log_line line = true)
  \/ (exists e,
        NoCacheHTTPRequestHandler.log_message self format args st = (Raise e, st)).
Proof.
  destruct (nth_error args 1) as [v|] eqn:Hv.
  - destruct v as [s|n|o r].
    + rewrite log_message_run with (s := s) by exact Hv.
      destruct (str_mod format args) as [message|e].
      * left. eexists. split; [reflexivity | apply log_line_is].
      * right. exists e. reflexivity.
    + right. exists AttributeError.
      apply log_message_not_str with (v := PyInt n); [assumption | discriminate].
    + right. exists AttributeError.
      apply log_message_not_str with (v := PyObject o r); [assumption | discriminate].
  - right. exists IndexError. apply log_message_short.
    apply nth_error_None in Hv. lia.
Qed.

Lemma status_range (code : Z) :
  100 <= code <= 599 -> status_class_color (str_int code) = range_color code.
Proof.
  intros H.
  assert (Hall : forallb (fun n => String.eqb (status_class_color (str_int (Z.of_nat n)))
                                     (range_color (Z.of_nat n)))
                   (seq 100 500) = true) by (vm_compute; reflexivity).
  rewrite forallb_forall in Hall.
  specialize (Hall (Z.to_nat code)). rewrite Z2Nat.id in Hall by lia.
  apply String.eqb_eq, Hall, in_seq. lia.
Qed.

(** X3. For the access-log call of the inherited [send_response], whose
    second argument is the decimal status code, the colour follows the status
    class: default for 1xx, green for 2xx, blue for 3xx, yellow for 4xx, red
    for 5xx. *)
Theorem access_line_color_by_status_class (self : handler) (line size : string)
    (code : Z) (st : state) :
  100 <= code <= 599 ->
  NoCacheHTTPRequestHandler.log_message self (DQUOTE ++ "%s" ++ DQUOTE ++ " %s %s")
    [PyStr line; PyStr (str_int code); PyStr size] st
  = (Ok tt,
     set_stdout
       (stdout st
        ++ [address_string self ++ " - - [" ++ log_date_time_string self ++ "] "
            ++ (if code <? 200 then ESC ++ "[0m"
                else if code <? 300 then ESC ++ "[92m"
                else if code <? 400 then ESC ++ "[94m"
                else if code <? 500 then ESC ++ "[93m"
                else ESC ++ "[91m")
            ++ (DQUOTE ++ line ++ DQUOTE ++ " " ++ str_int code ++ " " ++ size)
            ++ ESC ++ "[0m"]) st).
Proof.
  intros H. rewrite log_message_run with (s := str_int code) by reflexivity.
  rewrite (status_range code H). cbn [str_mod Ascii.eqb Bool.eqb outcome_map modelled convert
                                        negb orb py_str append DQUOTE].
  rewrite append_empty_r. reflexivity.
Qed.

Lemma access_line_color_by_status_class_witness :
  100 <= 404 <= 599
  /\ NoCacheHTTPRequestHandler.log_message app_handler (DQUOTE ++ "%s" ++ DQUOTE ++ " %s %s")
       [PyStr "GET /nope.js HTTP/1.1"; PyStr (str_int 404); PyStr "-"] initial_state
     = (Ok tt,
        set_stdout
          [ "127.0.0.1 - - [04/Nov/2026 10:00:00] " ++ ESC ++ "[93m"
            ++ DQUOTE ++ "GET /nope.js HTTP/1.1" ++ DQUOTE ++ " 404 -" ++ ESC ++ "[0m" ]
          initial_state).
Proof.
  assert (H : 100 <= 404 <= 599) by lia.
  split; [exact H|].
  exact (access_line_color_by_status_class app_handler "GET /nope.js HTTP/1.1" "-" 404
           initial_state H).
Defined.

(** X4. [send_error] is logged by exactly two lines: the line
    [code N, message M], whose colour is read off the first character of the
    message [M] and not off the code, then the access line in the colour of
    the code.  With the messages of the static handler the error line is in
    the default colour, whatever the code. *)
Theorem send_error_log_lines :
  (forall P self code message st,
     stdout (snd (send_error P Handler self code message st))
     = (stdout st
        ++ [ log_line self (status_class_color (error_message P code message))
               ("code " ++ str_int code ++ ", message " ++ error_message P code message)%string;
             log_line self (status_class_color (str_int code))
               (DQUOTE ++ requestline self ++ DQUOTE ++ " " ++ str_int code ++ " -")%string ])%list)
  /\ status_class_color "File not found" = default_color
  /\ status_class_color "No permission to list directory" = default_color
  /\ (forall method, status_class_color ("Unsupported method (" ++ method ++ ")")
                     = default_color).
Proof.
  split; [|repeat split; reflexivity].
  intros P self code message st. rewrite send_error_run. cbn [snd].
  rewrite answered_stdout. reflexivity.
Qed.

(** X5. Whenever the script's [log_message] prints, the inherited one
    returns too, for the same call, with the same message (control
    characters escaped) on standard error; the converse fails, the inherited
    logger accepting the one-argument call made after a timed-out read. *)
Theorem override_logs_less (self : handler) (format : string) (args : list pyval)
    (st st' : state) :
  NoCacheHTTPRequestHandler.log_message self format args st = (Ok tt, st') ->
  (exists message,
     str_mod format args = Ok message
     /\ BaseHTTPRequestHandler.log_message self format args st
        = (Ok tt,
           set_stderr
             (stderr st
              ++ [address_string self ++ " - - [" ++ log_date_time_string self ++ "] "
                  ++ translate message ++ LF]) st))
  /\ BaseHTTPRequestHandler.log_message self "Request timed out: %r" [timeout_error] st
     = (Ok tt,
        set_stderr
          (stderr st
           ++ [address_string self ++ " - - [" ++ log_date_time_string self ++ "] "
               ++ "Request timed out: TimeoutError('timed out')" ++ LF]) st)
  /\ NoCacheHTTPRequestHandler.log_message self "Request timed out: %r" [timeout_error] st
     = (Raise IndexError, st).
Proof.
  intros E. split; [|split].
  - destruct (nth_error args 1) as [v|] eqn:Hv.
    + destruct v as [s|n|o r].
      * rewrite log_message_run with (s := s) in E by exact Hv.
        unfold BaseHTTPRequestHandler.log_message, bind, lift, stderr_write, modify.
        destruct (str_mod format args) as [message|e]; [|discriminate E].
        exists message. split; reflexivity.
      * rewrite log_message_not_str with (v := PyInt n) in E
          by (assumption || discriminate).
        discriminate E.
      * rewrite log_message_not_str with (v := PyObject o r) in E
          by (assumption || discriminate).
        discriminate E.
    + rewrite log_message_short in E; [discriminate E|].
      apply nth_error_None in Hv. lia.
  - reflexivity.
  - apply log_message_short. simpl. lia.
Qed.

Lemma override_logs_less_witness :
  NoCacheHTTPRequestHandler.log_message app_handler access_format access_args initial_state
  = (Ok tt,
     set_stdout [log_line app_handler green
                   (DQUOTE ++ "GET /app.js HTTP/1.1" ++ DQUOTE ++ " 200 -")] initial_state)
  /\ exists message,
       str_mod access_format access_args = Ok message
       /\ BaseHTTPRequestHandler.log_message app_handler access_format access_args initial_state
          = (Ok tt,
             set_stderr
               (stderr initial_state
                ++ [address_string app_handler ++ " - - ["
                    ++ log_date_time_string app_handler ++ "] "
                    ++ translate message ++ LF]) initial_state).
Proof.
  assert (E : NoCacheHTTPRequestHandler.log_message app_handler access_format access_args
                initial_state
              = (Ok tt,
                 set_stdout [log_line app_handler green
                               (DQUOTE ++ "GET /app.js HTTP/1.1" ++ DQUOTE ++ " 200 -")]
                   initial_state)) by reflexivity.
  split; [exact E|].
  exact (proj1 (override_logs_less app_handler access_format access_args initial_state _ E)).
Defined.

(** ** The header hook *)

(** X6. [end_headers] always returns, also when no header has been buffered,
    and changes neither the console nor the keep-alive flag: it sends at most
    one chunk.  The inherited [end_headers], called on a handler without
    buffer, raises [AttributeError]. *)
Theorem end_headers_total :
  (forall self st,
     exists st',
       NoCacheHTTPRequestHandler.end_headers self st = (Ok tt, st')
       /\ stdout st' = stdout st
       /\ stderr st' = stderr st
       /\ close_connection st' = close_connection st
       /\ (wfile st' = wfile st \/ exists block, wfile st' = (wfile st ++ [block])%list))
  /\ (forall self st,
        request_version self <> "HTTP/0.9" ->
        _headers_buffer st = None ->
        BaseHTTPRequestHandler.end_headers self st = (Raise AttributeError, st)
        /\ NoCacheHTTPRequestHandler.end_headers self st
           = (Ok tt,
              set_headers_buffer (Some [])
                (set_wfile (wfile st ++ [join (no_cache_headers ++ [CRLF])%list]) st))).
Proof.
  split.
  - intros self st. rewrite end_headers_run. eexists. split; [reflexivity|].
    unfold flushing. destruct (String.eqb (request_version self) "HTTP/0.9").
    + auto.
    + destruct st as [o e b w c]. cbn. repeat (split; [reflexivity|]). right. eauto.
  - intros self st V Hb. apply String.eqb_neq in V. split.
    + unfold BaseHTTPRequestHandler.end_headers, bind, gets. rewrite V. cbv beta iota.
      cbn [negb]. rewrite Hb. reflexivity.
    + rewrite end_headers_run. unfold flushing, header_block, buffered. rewrite V, Hb.
      reflexivity.
Qed.

Lemma end_headers_total_witness :
  request_version app_handler <> "HTTP/0.9"
  /\ _headers_buffer initial_state = None
  /\ BaseHTTPRequestHandler.end_headers app_handler initial_state
     = (Raise AttributeError, initial_state)
  /\ NoCacheHTTPRequestHandler.end_headers app_handler initial_state
     = (Ok tt,
        set_headers_buffer (Some [])
          (set_wfile (wfile initial_state ++ [join (no_cache_headers ++ [CRLF])%list])
             initial_state)).
Proof.
  assert (V : request_version app_handler <> "HTTP/0.9") by discriminate.
  split; [exact V|]. split; [reflexivity|].
  exact (proj2 end_headers_total app_handler initial_state V eq_refl).
Defined.

(** X7. [end_headers] empties the buffer: called twice in a row it sends the
    buffered lines once, with the three headers, and then a second block made
    of the three headers and the blank line alone. *)
Theorem end_headers_twice (self : handler) (st : state) :
  request_version self <> "HTTP/0.9" ->
  (NoCacheHTTPRequestHandler.end_headers self ;;
   NoCacheHTTPRequestHandler.end_headers self) st
  = (Ok tt,
     set_headers_buffer (Some [])
       (set_wfile
          (wfile st
           ++ [ join (buffered st ++ no_cache_headers ++ [CRLF])%list;
                join (no_cache_headers ++ [CRLF])%list ]) st)).
Proof.
  intros V. apply String.eqb_neq in V. unfold bind.
  rewrite end_headers_run. cbv beta iota. rewrite end_headers_run.
  unfold flushing, header_block. rewrite V.
  destruct st as [o e b w c]. cbn. rewrite <- app_assoc. reflexivity.
Qed.

Lemma end_headers_twice_witness :
  request_version app_handler <> "HTTP/0.9"
  /\ (NoCacheHTTPRequestHandler.end_headers app_handler ;;
      NoCacheHTTPRequestHandler.end_headers app_handler) initial_state
     = (Ok tt,
        set_headers_buffer (Some [])
          (set_wfile
             (wfile initial_state
              ++ [ join (buffered initial_state ++ no_cache_headers ++ [CRLF])%list;
                   join (no_cache_headers ++ [CRLF])%list ]) initial_state)).
Proof.
  assert (V : request_version app_handler <> "HTTP/0.9") by discriminate.
  split; [exact V|].
  exact (end_headers_twice app_handler initial_state V).
Defined.

(** ** The serving loop *)

(** How the handler of a connection ends and what it leaves, in whatever
    state the console is: the outcome and the bytes sent are those of a first
    connection, and standard error is as it was. *)
Lemma finish_request_outcome P c st :
  exists st',
    finish_request P Handler c st = (handler_outcome P c, st')
    /\ stderr st' = stderr st
    /\ wfile st' = reply_to P c
    /\ (handler_outcome P c = Ok tt
        \/ handler_outcome P c = Raise IndexError
        \/ handler_outcome P c = Raise ValueError).
Proof.
  unfold handler_outcome, reply_to, finish_request, bind, modify. rewrite !handle_run.
  destruct (first c) as [|self e|self code message|self].
  - cbn [handle_one_request]. unfold modify. cbn [fst snd]. eexists.
    split; [reflexivity|]. split; [reflexivity|]. split; [reflexivity|]. left. reflexivity.
  - cbn [handle_one_request]. unfold bind, log_error. cbn [cls_log_message Handler].
    rewrite !log_message_short by (simpl; lia). cbn [fst snd]. eexists.
    split; [reflexivity|]. split; [reflexivity|]. split; [reflexivity|]. right. left. reflexivity.
  - rewrite !rejected_reply. cbn [fst snd]. eexists. split; [reflexivity|].
    rewrite answered_stderr. split; [reflexivity|].
    split; [unfold answered; destruct (String.eqb _ _); reflexivity | left; reflexivity].
  - destruct (parsed_reply P self) as [E | (logs & lines & body & closing & _ & _ & E)];
      rewrite !E; cbn [fst snd]; eexists; (split; [reflexivity|]).
    + split; [reflexivity|]. split; [reflexivity|]. right. right. reflexivity.
    + rewrite answered_stderr. split; [reflexivity|].
      split; [unfold answered; destruct (String.eqb _ _); reflexivity | left; reflexivity].
Qed.

Lemma finish_request_wfile P c st :
  wfile (snd (finish_request P Handler c st)) = reply_to P c.
Proof.
  destruct (finish_request_outcome P c st) as (st' & E & _ & Hw & _).
  rewrite E. exact Hw.
Qed.

(** What one turn of the loop leaves on the connection and on standard
    error. *)
Lemma handle_request_noblock_sent P t c srv :
  exists st',
    _handle_request_noblock P Handler t c srv
    = (Ok tt, mkServer st' (socket_open srv)
                (schedule srv ++ in_turn t (List.length (sent srv)))
                (sent srv ++ [reply_to P c]))
    /\ stderr st' = (stderr (console srv) ++ reported P c)%list.
Proof.
  unfold _handle_request_noblock, process_request, record_action, in_turn.
  cbn [console socket_open schedule sent].
  destruct (finish_request_outcome P c (console srv)) as (st' & E & Herr & Hw & Ho).
  rewrite E. unfold reported. destruct Ho as [Ho | [Ho | Ho]]; rewrite Ho.
  - exists st'. cbn [console socket_open schedule sent]. rewrite <- !app_assoc, Hw, app_nil_r.
    split; [reflexivity | exact Herr].
  - exists (snd (handle_error P c IndexError st')).
    cbn [console socket_open schedule sent]. rewrite <- !app_assoc, Hw.
    destruct st' as [o' e' b' w' c']. cbn [stderr] in Herr. subst e'.
    split; [reflexivity|]. unfold error_report. cbn. rewrite <- !app_assoc. reflexivity.
  - exists (snd (handle_error P c ValueError st')).
    cbn [console socket_open schedule sent]. rewrite <- !app_assoc, Hw.
    destruct st' as [o' e' b' w' c']. cbn [stderr] in Herr. subst e'.
    split; [reflexivity|]. unfold error_report. cbn. rewrite <- !app_assoc. reflexivity.
Qed.

Lemma serve_forever_sent P t inputs srv :
  forallb is_connect inputs = true ->
  sent (snd (serve_forever P Handler t inputs srv))
  = (sent srv ++ map (reply_to P) (connections inputs))%list
  /\ stderr (console (snd (serve_forever P Handler t inputs srv)))
     = (stderr (console srv) ++ flat_map (reported P) (connections inputs))%list.
Proof.
  revert srv. induction inputs as [|i rest IH]; intros srv Hall.
  - cbn. rewrite !app_nil_r. auto.
  - cbn in Hall. apply andb_true_iff in Hall as [Hi Hrest]. destruct i as [c|]; [|discriminate].
    cbn [serve_forever connections map flat_map].
    destruct (handle_request_noblock_sent P t c srv) as (st1 & E & Herr). rewrite E.
    match goal with |- context [serve_forever P Handler t rest ?s] =>
      destruct (IH s Hrest) as [IH1 IH2] end.
    rewrite IH1, IH2. cbn [sent console]. rewrite Herr, <- !app_assoc. auto.
Qed.

Lemma connections_until (inputs : list input) :
  connections (until_interrupt inputs) = connections inputs.
Proof.
  induction inputs as [|[c|] rest IH]; cbn; [reflexivity | now rewrite IH | reflexivity].
Qed.

(** The responses and the standard error of a whole run. *)
Lemma dev_server_sent (P : platform) (inputs : list input) :
  bind_socket P EmptyString PORT = Ok tt ->
  sent (httpd (dev_server P inputs)) = map (reply_to P) (connections inputs)
  /\ err (dev_server P inputs) = flat_map (reported P) (connections inputs).
Proof.
  intros Hbind.
  assert (Hpre : forall pre, forallb is_connect pre = true ->
            sent (httpd (dev_server P pre)) = map (reply_to P) (connections pre)
            /\ err (dev_server P pre) = flat_map (reported P) (connections pre)).
  { intros pre Hall.
    destruct (dev_server_connects P pre Hbind Hall) as (st & logs & more & E & _ & _ & _ & Es).
    destruct (serve_forever_sent P MainThread pre
                (mkServer (mkState (banner P) [] None [] true) true [] []) Hall) as [H1 H2].
    rewrite Es in H1, H2. rewrite E. unfold err. cbn [httpd sent console snd] in *.
    split; assumption. }
  destruct (inputs_split inputs) as [Hall [E | [post E]]].
  - destruct (Hpre _ Hall) as [H1 H2]. rewrite connections_until in H1, H2.
    rewrite <- E in H1, H2. split; assumption.
  - destruct (Hpre _ Hall) as [H1 H2]. rewrite connections_until in H1, H2.
    assert (Hd : dev_server P inputs
                 = dev_server P (until_interrupt inputs ++ SIGINT :: post))
      by (f_equal; exact E).
    rewrite Hd, dev_server_interrupted by assumption.
    unfold err in *. cbn [httpd sent console]. split; [exact H1|].
    destruct (console (httpd (dev_server P (until_interrupt inputs)))); exact H2.
Qed.

(** X8. A connection whose first read times out does not stop the server:
    the logger's [IndexError] is caught by the loop, which writes the
    four-part report on standard error, prints no log line, sends nothing to
    the peer, shuts the connection down and goes on. *)
Theorem timed_out_read_is_survived (P : platform) (t : thread) (p : string)
    (self : handler) (e : pyval) (rest : list request) (srv : server) :
  _handle_request_noblock P Handler t (mkConnection p (TimedOut self e) rest) srv
  = (Ok tt,
     mkServer
       (mkState (stdout (console srv))
          (stderr (console srv)
           ++ [ "----------------------------------------";
                ("Exception occurred during processing of request from " ++ p)%string;
                format_exc P IndexError;
                "----------------------------------------" ])
          None [] true)
       (socket_open srv)
       (schedule srv
        ++ [ Accept (List.length (sent srv)) t; Begin (List.length (sent srv)) t;
             Shutdown (List.length (sent srv)) t ])
       (sent srv ++ [[]])).
Proof.
  unfold _handle_request_noblock, process_request, record_action, finish_request, bind, modify.
  cbn [console socket_open schedule sent]. rewrite handle_run.
  cbn [first handle_one_request]. unfold bind, log_error. cbn [cls_log_message Handler].
  rewrite log_message_short by (simpl; lia).
  destruct (console srv) as [o e' b w c]. cbn. rewrite <- !app_assoc. reflexivity.
Qed.

(** X9. Standard output of any run is the banner, then log lines only, each
    holding the separator that follows the client address, then the
    "Server stopped" line exactly when the process has exited with status
    0. *)
Theorem stdout_of_a_run (P : platform) (inputs : list input) :
  exists logs,
    Forall (fun l => is_log_line l = true) logs
    /\ ((exit_status (dev_server P inputs) = Exited 0
         /\ out (dev_server P inputs) = (banner P ++ logs ++ [server_stopped])%list)
        \/ (exit_status (dev_server P inputs) <> Exited 0
            /\ out (dev_server P inputs) = (banner P ++ logs)%list)).
Proof.
  destruct (bind_socket P EmptyString PORT) as [[]|e] eqn:Hbind.
  - destruct (inputs_split inputs) as [Hall [E | [post E]]].
    + destruct (dev_server_connects P _ Hbind Hall)
        as (st & logs & more & Ed & _ & Hout & Hlogs & _).
      rewrite <- E in Ed. exists logs. split; [exact Hlogs|]. right. rewrite Ed.
      unfold out. cbn [httpd console exit_status]. split; [discriminate | exact Hout].
    + destruct (dev_server_connects P _ Hbind Hall)
        as (st & logs & more & Ed & _ & Hout & Hlogs & _).
      pose proof (dev_server_interrupted P _ post Hbind Hall) as Ei.
      rewrite <- E, Ed in Ei. exists logs. split; [exact Hlogs|]. left. rewrite Ei.
      unfold out. cbn [httpd console exit_status]. split; [reflexivity|].
      destruct st as [o e b w c]. cbn [stdout set_stdout] in *. rewrite Hout.
      rewrite <- app_assoc. reflexivity.
  - exists []. split; [constructor|]. right.
    rewrite (dev_server_bind_failed P inputs e Hbind). unfold out.
    cbn [httpd console exit_status stdout]. split; [discriminate|].
    rewrite app_nil_r. reflexivity.
Qed.

(** X10. Standard error of a run holds the traceback of a failed bind or
    else, connection by connection in their order, the four-entry report of
    [handle_error] when the handler of the connection raised and nothing
    when it returned: the handler's own log lines all go to standard output.
    A handler raises [IndexError], from the logger, when the read timed out
    and [ValueError] when [open] raises it; a request line answered with an
    error status is not reported. *)
Theorem stderr_of_a_run (P : platform) (inputs : list input) :
  err (dev_server P inputs)
  = match bind_socket P EmptyString PORT with
    | Ok _ => flat_map (reported P) (connections inputs)
    | Raise e => [format_exc P e]
    end
  /\ (forall c, handler_outcome P c = Ok tt -> reported P c = [])
  /\ (forall c e,
        handler_outcome P c = Raise e ->
        reported P c
        = [ "----------------------------------------";
            ("Exception occurred during processing of request from " ++ peer c)%string;
            format_exc P e;
            "----------------------------------------" ])
  /\ (forall c self code message,
        first c = Rejected self code message -> handler_outcome P c = Ok tt)
  /\ (forall c, timed_out c = true -> handler_outcome P c = Raise IndexError)
  /\ (forall c self,
        first c = Parsed self ->
        command self = "GET" ->
        isdir P (translate_path P (path self)) = false ->
        str_endswith (translate_path P (path self)) "/" = false ->
        open_rb P (translate_path P (path self)) = OpenValueError ->
        handler_outcome P c = Raise ValueError).
Proof.
  split; [|split; [|split; [|split; [|split]]]].
  - destruct (bind_socket P EmptyString PORT) as [[]|e] eqn:Hbind.
    + exact (proj2 (dev_server_sent P inputs Hbind)).
    + rewrite (dev_server_bind_failed P inputs e Hbind). reflexivity.
  - intros c Ho. unfold reported. rewrite Ho. reflexivity.
  - intros c e Ho. unfold reported. rewrite Ho. reflexivity.
  - intros c self code message Hf.
    unfold handler_outcome, finish_request, bind, modify.
    rewrite handle_run, Hf, rejected_reply. reflexivity.
  - intros c Ht. unfold timed_out in Ht.
    unfold handler_outcome, finish_request, bind, modify. rewrite handle_run.
    destruct (first c) as [|self e|self code message|self]; try discriminate Ht.
    cbn [handle_one_request]. unfold bind, log_error. cbn [cls_log_message Handler].
    rewrite log_message_short by (simpl; lia). reflexivity.
  - intros c self Hf Hget Hdir Hslash Hopen.
    unfold handler_outcome, finish_request, bind, modify. rewrite handle_run, Hf.
    cbn [handle_one_request]. rewrite Hget. cbn [String.eqb Ascii.eqb Bool.eqb].
    unfold do_GET, send_head, bind. rewrite Hdir, serve_file_run, Hslash, Hopen. reflexivity.
Qed.

Lemma stderr_of_a_run_witness :
  first (one get_nul) = Parsed (sample_handler "GET" "/%00" "HTTP/1.1" None)
  /\ open_rb sample_platform
       (translate_path sample_platform (path (sample_handler "GET" "/%00" "HTTP/1.1" None)))
     = OpenValueError
  /\ handler_outcome sample_platform (one get_nul) = Raise ValueError.
Proof.
  split; [reflexivity|]. split; [reflexivity|].
  exact (proj2 (proj2 (proj2 (proj2 (proj2 (stderr_of_a_run sample_platform [])))))
           (one get_nul) (sample_handler "GET" "/%00" "HTTP/1.1" None)
           eq_refl eq_refl eq_refl eq_refl eq_refl).
Defined.

Example run_nul :
  dev_server sample_platform [Connect (one get_nul)]
  = mkProcess
      (mkServer
         (mkState (banner sample_platform)
            [ "----------------------------------------";
              "Exception occurred during processing of request from ('127.0.0.1', 50000)";
              "Traceback (most recent call last): ...";
              "----------------------------------------" ]
            None [] true)
         true
         [Accept 0 MainThread; Begin 0 MainThread; Shutdown 0 MainThread]
         [[]])
      Running.
Proof. vm_compute. reflexivity. Qed.

(** X11. Requests share no state: what is sent on a connection is what a
    handler would send on it as the first connection of a run, whatever was
    served before it, and the run sends one response per connection taken
    before the interrupt, in their order. *)
Theorem replies_are_stateless :
  (forall P c st, wfile (snd (finish_request P Handler c st)) = reply_to P c)
  /\ (forall P inputs,
        sent (httpd (dev_server P inputs))
        = match bind_socket P EmptyString PORT with
          | Ok _ => map (reply_to P) (connections inputs)
          | Raise _ => []
          end).
Proof.
  split; [exact finish_request_wfile|].
  intros P inputs. destruct (bind_socket P EmptyString PORT) as [[]|e] eqn:Hbind.
  - exact (proj1 (dev_server_sent P inputs Hbind)).
  - rewrite (dev_server_bind_failed P inputs e Hbind). reflexivity.
Qed.


(** X13. How a run ends: with status 1 when the socket cannot be bound, with
    status 0 when an interrupt arrives, and not at all otherwise, whatever
    the connections carry; the listening socket is open exactly while the
    process is serving. *)
Theorem how_a_run_ends (P : platform) (inputs : list input) :
  exit_status (dev_server P inputs)
  = match bind_socket P EmptyString PORT with
    | Raise _ => Exited 1
    | Ok _ => if forallb is_connect inputs then Running else Exited 0
    end
  /\ socket_open (httpd (dev_server P inputs))
     = match bind_socket P EmptyString PORT with
       | Raise _ => false
       | Ok _ => forallb is_connect inputs
       end.
Proof.
  destruct (bind_socket P EmptyString PORT) as [[]|e] eqn:Hbind.
  - destruct (inputs_split inputs) as [Hall [E | [post E]]].
    + rewrite <- E in Hall. rewrite Hall.
      destruct (dev_server_connects P inputs Hbind Hall) as (st & logs & more & Ed & _).
      rewrite Ed. split; reflexivity.
    + assert (Hd : dev_server P inputs
                   = dev_server P (until_interrupt inputs ++ SIGINT :: post))
        by (f_equal; exact E).
      assert (Hf : forallb is_connect inputs = false).
      { rewrite E, forallb_app. cbn. apply andb_false_r. }
      rewrite Hd, dev_server_interrupted, Hf by assumption. split; reflexivity.
  - rewrite (dev_server_bind_failed P inputs e Hbind). split; reflexivity.
Qed.

Example run_two_requests_one_connection :
  sent (httpd (dev_server sample_platform
                 [Connect (mkConnection "('127.0.0.1', 50000)" get_missing [get_app])]))
  = sent (httpd (dev_server sample_platform [Connect (one get_missing)])).
Proof. vm_compute. reflexivity. Qed.
